(** * Regression-test helpers of openeo-benchmarks ([utils.py])

    A shallow embedding of [utils.py] ([extract_test_geometries],
    [extract_reference_band_statistics], [assert_band_statistics],
    [calculate_band_statistics], [execute_and_assert]) and the properties of
    the last four.

    Conventions of the embedding.
    - A Python [float] is a binary64 value: Rocq's primitive [float], whose
      operations are the IEEE 754 ones (round to nearest even).
    - A Python [dict] is an insertion-ordered association list with unique
      keys ([dict]); iteration follows the list.
    - A function that logs or raises runs in the monad [M]: it threads the
      records sent to the module logger [_log] and the state of the outside
      world (file system, remote back-end), and returns [Ok v] or [Raise e].
    - [exn] ranges over instances of Python's [Exception], the class that the
      handlers [except Exception as e] of the module catch. *)

From Stdlib Require Import String Ascii List ZArith Bool Lia.
From Stdlib Require Import Uint63 Floats.
Import ListNotations.

Set Warnings "-inexact-float,-register-all".

Open Scope string_scope.
Open Scope list_scope.

(** ** Python runtime: exceptions, outcomes, logging *)

Inductive exn : Type :=
| ValueError (msg : string)
| KeyError (key : string)
| TypeError (msg : string)
| AssertionError
| ExternalError (cls msg : string).

(** [str(e)], as the f-strings of the log messages format an exception. *)
Definition exn_str (e : exn) : string :=
  match e with
  | ValueError msg => msg
  | KeyError key => "'" ++ key ++ "'"
  | TypeError msg => msg
  | AssertionError => ""
  | ExternalError _ msg => msg
  end.

Inductive outcome (A : Type) : Type :=
| Ok (a : A)
| Raise (e : exn).
Arguments Ok {A} a.
Arguments Raise {A} e.

Definition obind {A B : Type} (o : outcome A) (k : A -> outcome B) : outcome B :=
  match o with
  | Ok a => k a
  | Raise e => Raise e
  end.

Declare Scope outcome_scope.
Delimit Scope outcome_scope with outcome.
Notation "x <- c ;; k" := (obind c (fun x => k))
  (at level 61, c at next level, right associativity) : outcome_scope.

Inductive level : Type := INFO | WARNING | ERROR.

Record log_record : Type := LogRecord { lvl : level; text : string }.

(** ** Python dictionaries: insertion-ordered, keys unique *)

Definition dict (V : Type) : Type := list (string * V).

Definition keys {V : Type} (d : dict V) : list string := map fst d.

Fixpoint dict_get {V : Type} (k : string) (d : dict V) : option V :=
  match d with
  | [] => None
  | (k', v) :: rest => if String.eqb k k' then Some v else dict_get k rest
  end.

Definition dict_mem {V : Type} (k : string) (d : dict V) : bool :=
  match dict_get k d with
  | Some _ => true
  | None => false
  end.

(** [d[k] = v]: an existing key keeps its place, a new key goes last. *)
Fixpoint dict_set {V : Type} (k : string) (v : V) (d : dict V) : dict V :=
  match d with
  | [] => [(k, v)]
  | (k', v') :: rest =>
      if String.eqb k k' then (k', v) :: rest else (k', v') :: dict_set k v rest
  end.

(** The invariant of a Python [dict]: no key occurs twice. *)
Definition dict_wf {V : Type} (d : dict V) : Prop := NoDup (keys d).

(** ** Values read by [json.load]

    A JSON number is kept as the float of its value, also where Python reads
    an [int]: the same value for integers up to 2^53 in magnitude; larger
    integer literals are outside the model. *)

Inductive json : Type :=
| JNull
| JBool (b : bool)
| JNum (x : float)
| JStr (s : string)
| JArr (items : list json)
| JObj (members : list (string * json)).

(** [for x in v]: a list yields its items, a dict its keys, a string its
    characters; other values are not iterable. *)
Definition py_iter (v : json) : outcome (list json) :=
  match v with
  | JArr items => Ok items
  | JObj members => Ok (map (fun kv => JStr (fst kv)) members)
  | JStr s => Ok (map (fun c => JStr (String c EmptyString)) (list_ascii_of_string s))
  | JNull | JBool _ | JNum _ => Raise (TypeError "object is not iterable")
  end.

(** [v[key]] for a string [key]. *)
Definition py_getitem (v : json) (key : string) : outcome json :=
  match v with
  | JObj members =>
      match dict_get key members with
      | Some x => Ok x
      | None => Raise (KeyError key)
      end
  | JArr _ => Raise (TypeError "list indices must be integers or slices, not str")
  | JStr _ => Raise (TypeError "string indices must be integers")
  | JNull | JBool _ | JNum _ => Raise (TypeError "object is not subscriptable")
  end.

(** [v == s] for a string [s]. *)
Definition py_eq_str (v : json) (s : string) : bool :=
  match v with
  | JStr s' => String.eqb s' s
  | _ => false
  end.

(** ** The state and error monad of the module *)

Section Runtime.

Variable World : Type.

Record state : Type := State { world : World; log : list log_record }.

Definition M (A : Type) : Type := state -> outcome A * state.

Definition ret {A : Type} (a : A) : M A := fun st => (Ok a, st).

Definition raise {A : Type} (e : exn) : M A := fun st => (Raise e, st).

Definition bind {A B : Type} (m : M A) (k : A -> M B) : M B :=
  fun st =>
    match m st with
    | (Ok a, st') => k a st'
    | (Raise e, st') => (Raise e, st')
    end.

(** [try: body  except Exception as e: handler e]. *)
Definition try_except {A : Type} (body : M A) (handler : exn -> M A) : M A :=
  fun st =>
    match body st with
    | (Ok a, st') => (Ok a, st')
    | (Raise e, st') => handler e st'
    end.

Definition lift {A : Type} (o : outcome A) : M A := fun st => (o, st).

(** A call into an external collaborator: it may change the world, not the log. *)
Definition external {A : Type} (f : World -> outcome A * World) : M A :=
  fun st =>
    let (r, w') := f (world st) in
    (r, State w' (log st)).

(** The state after the records [l] were sent to the logger. *)
Definition logged (st : state) (l : list log_record) : state :=
  State (world st) (log st ++ l).

Definition emit (l : level) (msg : string) : M unit :=
  fun st => (Ok tt, logged st [LogRecord l msg]).

Definition log_info : string -> M unit := emit INFO.
Definition log_warning : string -> M unit := emit WARNING.
Definition log_error : string -> M unit := emit ERROR.

End Runtime.

Arguments State {World} world log.
Arguments world {World} s.
Arguments log {World} s.
Arguments ret {World A} a.
Arguments raise {World A} e.
Arguments bind {World A B} m k.
Arguments try_except {World A} body handler.
Arguments lift {World A} o.
Arguments external {World A} f.
Arguments logged {World} st l.
Arguments emit {World} l msg.
Arguments log_info {World} _.
Arguments log_warning {World} _.
Arguments log_error {World} _.

Declare Scope py_scope.
Delimit Scope py_scope with py.
Notation "x <- c ;; k" := (bind c (fun x => k))
  (at level 61, c at next level, right associativity) : py_scope.
Notation "c ;; k" := (bind c (fun _ => k))
  (at level 61, right associativity) : py_scope.

(** ** The approximate-equality primitive of the test framework *)

Module Pytest.

Open Scope float_scope.

(** Modelled from the spec: [pytest.approx] is the test framework's primitive,
    not part of the repository. Spec 4.4: the computed value is within
    [tolerance] relative distance of the reference value, [|a-b| <= tolerance * |b|],
    with the library-default epsilon for near-zero references. The library
    default absolute tolerance is [1e-12]. *)
Definition DEFAULT_ABSOLUTE_TOLERANCE : float := 1e-12.

(** Python's [max(a, b)]: the second argument wins only when it is greater. *)
Definition py_max (a b : float) : float := if a <? b then b else a.

(** Modelled from the spec: the tolerance of [pytest.approx(expected, rel=rel)],
    the larger of [rel * |expected|] and the default absolute tolerance; the
    library rejects a negative or NaN relative tolerance with a [ValueError]. *)
Definition tolerance (expected rel : float) : outcome float :=
  let relative_tolerance := rel * abs expected in
  if relative_tolerance <? 0 then
    Raise (ValueError "relative tolerance can't be negative")
  else if is_nan relative_tolerance then
    Raise (ValueError "relative tolerance can't be NaN.")
  else Ok (py_max relative_tolerance DEFAULT_ABSOLUTE_TOLERANCE).

(** Modelled from the spec: [actual == pytest.approx(expected, rel=rel)] on
    two floats. Equal values compare equal at once; a NaN or infinite reference
    equals nothing else; otherwise [|expected - actual| <= tolerance]. *)
Definition approx_eq (actual expected rel : float) : outcome bool :=
  if actual =? expected then Ok true
  else if is_nan (abs expected) then Ok false
  else if is_infinity expected then Ok false
  else (tol <- tolerance expected rel ;;
        Ok (abs (expected - actual) <=? tol))%outcome.

End Pytest.

(** ** The array library: a dataset and its reductions *)

Module Xr.

Open Scope float_scope.

(** A data variable, as the reductions see it: the values of all its cells. *)
Definition DataArray : Type := list float.

(** [xr.Dataset]: the mapping [data_vars] from variable name to variable. *)
Record Dataset : Type := MkDataset { data_vars : dict DataArray }.

(** [hypercube[band_name]]. *)
Definition getitem (hypercube : Dataset) (name : string) : outcome DataArray :=
  match dict_get name (data_vars hypercube) with
  | Some a => Ok a
  | None => Raise (KeyError name)
  end.

Definition float_of_nat (n : nat) : float := of_uint63 (Uint63.of_Z (Z.of_nat n)).

(** Missing-data cells (NaN) are skipped by the reductions. *)
Definition notnull (a : DataArray) : list float :=
  filter (fun x => negb (is_nan x)) a.

Definition fsum (xs : list float) : float := fold_left add xs 0.

(** Modelled from the spec: [DataArray.mean()], spec 4.3: the mean over all
    values, missing-data cells skipped. *)
Definition mean (a : DataArray) : float :=
  let v := notnull a in
  fsum v / float_of_nat (length v).

(** Modelled from the spec: [DataArray.var()], spec 4.3: the population
    variance (no degrees-of-freedom correction), missing-data cells skipped. *)
Definition var (a : DataArray) : float :=
  let v := notnull a in
  let m := mean a in
  fsum (map (fun x => (x - m) * (x - m)) v) / float_of_nat (length v).

Definition fmin (a b : float) : float := if b <? a then b else a.
Definition fmax (a b : float) : float := if a <? b then b else a.

(** Modelled from the spec: [DataArray.min()] and [DataArray.max()], spec 4.3,
    missing-data cells skipped. The array library has no minimum or maximum of
    a variable without cells: it raises a [ValueError]. *)
Definition extremum (pick : float -> float -> float) (a : DataArray) : outcome float :=
  match a with
  | [] => Raise (ValueError "zero-size array to reduction operation which has no identity")
  | _ :: _ =>
      match notnull a with
      | [] => Ok nan
      | x :: xs => Ok (fold_left pick xs x)
      end
  end.

Definition min : DataArray -> outcome float := extremum fmin.
Definition max : DataArray -> outcome float := extremum fmax.

Fixpoint insert_sorted (x : float) (xs : list float) : list float :=
  match xs with
  | [] => [x]
  | y :: ys => if x <=? y then x :: xs else y :: insert_sorted x ys
  end.

Definition sort (xs : list float) : list float := fold_right insert_sorted [] xs.

(** The integer part of a non-negative finite float. *)
Definition floor_nat (h : float) : nat :=
  let (m, e) := frshiftexp h in
  let ex := (Uint63.to_Z e - FloatOps.shift)%Z in
  Z.to_nat (Z.shiftl (Uint63.to_Z (normfr_mantissa m)) (ex - FloatOps.prec)).

(** Linear interpolation between two neighbours. *)
Definition lerp (a b t : float) : float :=
  let diff_b_a := b - a in
  if 0.5 <=? t then b - diff_b_a * (1 - t) else a + diff_b_a * t.

(** Modelled from the spec: one entry of [DataArray.quantile(qs).values],
    spec 4.3: the percentile over all values, missing-data cells skipped, with
    the array library's default linear interpolation between the two cells
    around position [(n - 1) * q] of the sorted values (spec 8: the 25th
    percentile of [1,2,3,4] is [1.75]). *)
Definition quantile1 (a : DataArray) (q : float) : float :=
  let v := sort (notnull a) in
  match v with
  | [] => nan
  | _ :: _ =>
      let n := length v in
      let virtual_index := float_of_nat (n - 1) * q in
      let previous_index := floor_nat virtual_index in
      let next_index := Nat.min (previous_index + 1) (n - 1) in
      let gamma := virtual_index - float_of_nat previous_index in
      lerp (nth previous_index v nan) (nth next_index v nan) gamma
  end.

Definition quantile (a : DataArray) (qs : list float) : list float :=
  map (quantile1 a) qs.

End Xr.

(** ** [utils.py] *)

Open Scope float_scope.

Definition StatDict : Type := dict float.
Definition BandStatistics : Type := dict StatDict.

(** *** [calculate_band_statistics] *)

(** [[band_name for band_name in hypercube.data_vars if band_name != 'crs']]. *)
Definition band_names (hypercube : Xr.Dataset) : list string :=
  filter (fun band_name => negb (String.eqb band_name "crs"))
         (keys (Xr.data_vars hypercube)).

(** The body of the loop over the bands: the seven statistics of one band. *)
Definition band_statistics (band_data : Xr.DataArray) : outcome StatDict :=
  (let mean_value := Xr.mean band_data in
   let variance_value := Xr.var band_data in
   min_value <- Xr.min band_data ;;
   max_value <- Xr.max band_data ;;
   let quantiles := Xr.quantile band_data [0.25; 0.5; 0.75] in
   Ok [("mean", mean_value);
       ("variance", variance_value);
       ("min", min_value);
       ("max", max_value);
       ("quantile25", nth 0 quantiles nan);
       ("quantile50", nth 1 quantiles nan);
       ("quantile75", nth 2 quantiles nan)])%outcome.

Fixpoint calculate_loop (hypercube : Xr.Dataset) (names : list string)
    (statistics : BandStatistics) : outcome BandStatistics :=
  match names with
  | [] => Ok statistics
  | band_name :: rest =>
      (band_data <- Xr.getitem hypercube band_name ;;
       stats <- band_statistics band_data ;;
       calculate_loop hypercube rest (dict_set band_name stats statistics))%outcome
  end.

Definition calculate_band_statistics (hypercube : Xr.Dataset) : outcome BandStatistics :=
  calculate_loop hypercube (band_names hypercube) [].

(** The fixed keys of a band's record, in the order the code writes them. *)
Definition statistic_names : list string :=
  ["mean"; "variance"; "min"; "max"; "quantile25"; "quantile50"; "quantile75"].

(** *** [extract_reference_band_statistics]: the scan of the records *)

Definition reference_file : string := "groundtruth_regression_test.json".

Definition not_found (scenario_name : string) : exn :=
  ValueError ("No reference data found for scenario '" ++ scenario_name
              ++ "' in file '" ++ reference_file ++ "'.").

(** [for scenario_data in all_reference_data: ...] followed by the [raise]. *)
Fixpoint scan_records (records : list json) (scenario_name : string) : outcome json :=
  match records with
  | [] => Raise (not_found scenario_name)
  | scenario_data :: rest =>
      (name <- py_getitem scenario_data "scenario_name" ;;
       if py_eq_str name scenario_name
       then py_getitem scenario_data "reference_data"
       else scan_records rest scenario_name)%outcome
  end.

(** The reference data read as the mapping band -> statistic -> number that
    [assert_band_statistics] expects, when it has that shape. *)
Fixpoint traverse {A B : Type} (f : A -> option B) (l : list A) : option (list B) :=
  match l with
  | [] => Some []
  | a :: rest =>
      match f a, traverse f rest with
      | Some b, Some bs => Some (b :: bs)
      | _, _ => None
      end
  end.

Definition stat_of_json (kv : string * json) : option (string * float) :=
  match snd kv with
  | JNum x => Some (fst kv, x)
  | _ => None
  end.

Definition band_of_json (kv : string * json) : option (string * StatDict) :=
  match snd kv with
  | JObj members =>
      match traverse stat_of_json members with
      | Some stats => Some (fst kv, stats)
      | None => None
      end
  | _ => None
  end.

Definition band_dict_of_json (v : json) : option BandStatistics :=
  match v with
  | JObj members => traverse band_of_json members
  | _ => None
  end.

Section Utils.

Variable World : Type.

(** The job handle [openeo.DataCube]. *)
Variable Cube : Type.

(** External collaborators: [open] with [geojson.load], [open] with
    [json.load], [cube.execute_batch] and [xr.open_dataset]. *)
Variable geojson_load_file : string -> World -> outcome json * World.
Variable json_load_file : string -> World -> outcome json * World.
Variable execute_batch :
  Cube -> string -> string -> string -> dict string -> World -> outcome unit * World.
Variable open_dataset : string -> World -> outcome Xr.Dataset * World.

(** What the comparison does, by Python's dynamic typing, with reference data
    that is not a mapping band -> statistic -> number. *)
Variable assert_band_statistics_dyn : BandStatistics -> json -> float -> M World unit.

Open Scope py_scope.

Definition extract_test_geometries (filename : string) : M World json :=
  let path := ("./geofiles/" ++ filename)%string in
  log_info ("Reading geometries from " ++ path) ;;
  try_except
    (external (geojson_load_file path))
    (fun e =>
       log_error ("Error while reading geometries from " ++ path ++ ": " ++ exn_str e)%string ;;
       raise e).

Definition extract_reference_band_statistics (scenario_name : string) : M World json :=
  log_info ("Extracting reference band statistics for " ++ scenario_name) ;;
  try_except
    (all_reference_data <- external (json_load_file reference_file) ;;
     records <- lift (py_iter all_reference_data) ;;
     lift (scan_records records scenario_name))
    (fun e =>
       log_error ("Error while extracting reference band statistics: " ++ exn_str e) ;;
       raise e).

(** *** [assert_band_statistics] *)

Definition comparing_info : string :=
  "Comparing and asserting the statistics of different bands in the output".

Definition band_warning (output_band_name : string) : string :=
  "Warning: Band '" ++ output_band_name ++ "' not found in reference.".

Definition stat_warning (stat output_band_name : string) : string :=
  "Warning: Statistic '" ++ stat ++ "' not found for band '" ++ output_band_name
  ++ "' in output.".

Definition assertion_info (output_band_name stat : string) : string :=
  "Assertion: Band '" ++ output_band_name ++ "' and statistic '" ++ stat ++ "'".

(** [for stat, gt_value in gt_band_stats.items(): ...]. *)
Fixpoint assert_stat_loop (output_band_name : string) (output_band_stats : StatDict)
    (gt_items : list (string * float)) (tolerance : float) : M World unit :=
  match gt_items with
  | [] => ret tt
  | (stat, gt_value) :: rest =>
      match dict_get stat output_band_stats with
      | None =>
          log_warning (stat_warning stat output_band_name) ;;
          assert_stat_loop output_band_name output_band_stats rest tolerance
      | Some output_stat =>
          log_info (assertion_info output_band_name stat) ;;
          passed <- lift (Pytest.approx_eq output_stat gt_value tolerance) ;;
          if (passed : bool)
          then assert_stat_loop output_band_name output_band_stats rest tolerance
          else raise AssertionError
      end
  end.

(** [for output_band_name, output_band_stats in output_band_stats.items(): ...]. *)
Fixpoint assert_band_loop (items : list (string * StatDict))
    (groundtruth_band_dict : BandStatistics) (tolerance : float) : M World unit :=
  match items with
  | [] => ret tt
  | (output_band_name, output_band_stats) :: rest =>
      match dict_get output_band_name groundtruth_band_dict with
      | None =>
          log_warning (band_warning output_band_name) ;;
          assert_band_loop rest groundtruth_band_dict tolerance
      | Some gt_band_stats =>
          assert_stat_loop output_band_name output_band_stats gt_band_stats tolerance ;;
          assert_band_loop rest groundtruth_band_dict tolerance
      end
  end.

Definition assert_band_statistics (output_band_stats groundtruth_band_dict : BandStatistics)
    (tolerance : float) : M World unit :=
  log_info comparing_info ;;
  assert_band_loop output_band_stats groundtruth_band_dict tolerance.

(** *** [execute_and_assert] *)

Definition default_tolerance : float := 0.01.

(** The parameter [tolerance: float = 0.01]: [None] stands for an omitted argument. *)
Definition tolerance_or_default (tolerance : option float) : float :=
  match tolerance with
  | Some t => t
  | None => default_tolerance
  end.

(** The [try] block of [execute_and_assert]. *)
Definition execute_and_assert_body (cube : Cube) (output_path scenario_name : string)
    (tolerance : float) : M World unit :=
  external (execute_batch cube output_path scenario_name "benchmarking-creo"
                          [("driver-memory", "1g")]) ;;
  output_cube <- external (open_dataset output_path) ;;
  output_band_stats <- lift (calculate_band_statistics output_cube) ;;
  groundtruth_band_stats <- extract_reference_band_statistics scenario_name ;;
  match band_dict_of_json groundtruth_band_stats with
  | Some groundtruth => assert_band_statistics output_band_stats groundtruth tolerance
  | None => assert_band_statistics_dyn output_band_stats groundtruth_band_stats tolerance
  end.

Definition execute_and_assert (cube : Cube) (output_path scenario_name : string)
    (tolerance : option float) : M World unit :=
  try_except
    (execute_and_assert_body cube output_path scenario_name (tolerance_or_default tolerance))
    (fun e =>
       log_error ("Error during execution and assertion: " ++ exn_str e) ;;
       raise e).

End Utils.

Arguments extract_test_geometries {World} geojson_load_file filename.
Arguments extract_reference_band_statistics {World} json_load_file scenario_name.
Arguments assert_stat_loop {World} output_band_name output_band_stats gt_items tolerance.
Arguments assert_band_loop {World} items groundtruth_band_dict tolerance.
Arguments assert_band_statistics {World} output_band_stats groundtruth_band_dict tolerance.
Arguments execute_and_assert_body {World Cube}.
Arguments execute_and_assert {World Cube}.

(** ** Notions used by the statements *)

(** The comparison in the words of the specification: the computed value [v]
    is within [t * |r|] of the reference [r], or within the library-default
    absolute epsilon of it. *)
Definition within_tolerance (v r t : float) : bool :=
  (abs (v - r) <=? t * abs r) || (abs (v - r) <=? Pytest.DEFAULT_ABSOLUTE_TOLERANCE).

(** Passing comparisons, as the loops meet them. *)

Definition stat_passes (output_band_stats : StatDict) (tolerance : float)
    (item : string * float) : bool :=
  match dict_get (fst item) output_band_stats with
  | None => true
  | Some output_stat =>
      match Pytest.approx_eq output_stat (snd item) tolerance with
      | Ok true => true
      | _ => false
      end
  end.

Definition stats_pass (output_band_stats : StatDict) (gt_items : list (string * float))
    (tolerance : float) : bool :=
  forallb (stat_passes output_band_stats tolerance) gt_items.

Definition band_passes (groundtruth_band_dict : BandStatistics) (tolerance : float)
    (item : string * StatDict) : bool :=
  match dict_get (fst item) groundtruth_band_dict with
  | None => true
  | Some gt_band_stats => stats_pass (snd item) gt_band_stats tolerance
  end.

Definition bands_pass (items : list (string * StatDict))
    (groundtruth_band_dict : BandStatistics) (tolerance : float) : bool :=
  forallb (band_passes groundtruth_band_dict tolerance) items.

(** Every statistic of every band is a finite float. *)
Definition all_finite (statistics : BandStatistics) : bool :=
  forallb (fun band => forallb (fun stat => is_finite (snd stat)) (snd band)) statistics.

(** Every data variable other than ["crs"] holds at least one cell. *)
Definition has_cells (a : Xr.DataArray) : bool :=
  match a with
  | [] => false
  | _ :: _ => true
  end.

Definition bands_have_cells (hypercube : Xr.Dataset) : bool :=
  forallb (fun var => String.eqb (fst var) "crs" || has_cells (snd var))
          (Xr.data_vars hypercube).

Definition dataset_B02_crs : Xr.Dataset :=
  Xr.MkDataset [("B02", [1; 2; 3; 4]); ("crs", [0])].

Definition dataset_infinite : Xr.Dataset :=
  Xr.MkDataset [("B02", [1; infinity])].

Definition dataset_all_missing : Xr.Dataset :=
  Xr.MkDataset [("B02", [nan; nan])].

Definition dataset_B02 : Xr.Dataset := Xr.MkDataset [("B02", [1; 2; 3; 4])].

Definition statistics_B02 : BandStatistics :=
  [("B02", [("mean", 2.5); ("variance", 1.25); ("min", 1); ("max", 4);
            ("quantile25", 1.75); ("quantile50", 2.5); ("quantile75", 3.25)])].

(** A record that the scan passes over: a mapping whose ['scenario_name'] is
    not the requested name. *)
Definition names_other (scenario_name : string) (scenario_data : json) : bool :=
  match py_getitem scenario_data "scenario_name" with
  | Ok name => negb (py_eq_str name scenario_name)
  | Raise _ => false
  end.

(** A mapping that contains the key ['scenario_name']. *)
Definition has_scenario_name (scenario_data : json) : bool :=
  match scenario_data with
  | JObj members => dict_mem "scenario_name" members
  | _ => false
  end.

Definition extracting_info (scenario_name : string) : log_record :=
  LogRecord INFO ("Extracting reference band statistics for " ++ scenario_name).

Definition extracting_error (e : exn) : log_record :=
  LogRecord ERROR ("Error while extracting reference band statistics: " ++ exn_str e).

Definition is_empty_mapping (v : json) : bool :=
  match v with
  | JObj [] => true
  | _ => false
  end.

Definition orchestrator_error (e : exn) : log_record :=
  LogRecord ERROR ("Error during execution and assertion: " ++ exn_str e).


(** ** Worked inputs *)

Definition st0 : state unit := State tt [].

Definition output_three_bands : BandStatistics :=
  [("B01", [("mean", 1)]);
   ("B02", [("mean", 2.5); ("max", 9)]);
   ("B03", [("mean", 7)])].

Definition reference_two_bands : BandStatistics :=
  [("B02", [("min", 1); ("mean", 2.5); ("max", 4); ("variance", 99)]);
   ("B03", [("mean", 0)])].

Definition record (scenario_name : string) (reference_data : json) : json :=
  JObj [("scenario_name", JStr scenario_name); ("reference_data", reference_data)].

Definition reference_of (x : float) : json := JObj [("B02", JObj [("mean", JNum x)])].

Definition file_two_matches : json :=
  JArr [record "a" (reference_of 1); record "s" (reference_of 2.5); record "s" (reference_of 3)].

Definition load_const (content : json) : string -> unit -> outcome json * unit :=
  fun _ w => (Ok content, w).

Definition file_empty_reference : json := JArr [record "s" (JObj [])].

Definition file_malformed : json :=
  JArr [record "a" (reference_of 1); JObj [("scenario", JStr "s")]; record "s" (reference_of 2.5)].

Definition json_of_stats (stats : StatDict) : json :=
  JObj (map (fun kv => (fst kv, JNum (snd kv))) stats).

Definition file_B02 (mean : float) : json :=
  JArr [record "s"
          (JObj [("B02", json_of_stats (dict_set "mean" mean [("mean", 0); ("max", 4)]))])].

Definition batch_done :
  unit -> string -> string -> string -> dict string -> unit -> outcome unit * unit :=
  fun _ _ _ _ _ w => (Ok tt, w).

Definition dataset_written : string -> unit -> outcome Xr.Dataset * unit :=
  fun _ w => (Ok dataset_B02_crs, w).

Definition job_failed : exn := ExternalError "JobFailedException" "Batch job failed".

Definition failing_batch :
  unit -> string -> string -> string -> dict string -> unit -> outcome unit * unit :=
  fun _ _ _ _ _ w => (Raise job_failed, w).

Definition no_dataset : string -> unit -> outcome Xr.Dataset * unit :=
  fun _ w => (Raise (ExternalError "FileNotFoundError" "No such file or directory"), w).

Definition no_dyn : BandStatistics -> json -> float -> M unit unit :=
  fun _ _ _ => raise (TypeError "reference data is not a mapping of mappings").

(** * Properties *)

(** ** Binary64 facts *)

Module FloatFacts.

Open Scope float_scope.

(** The sign class of a non-negative, non-NaN value. *)
Definition nonneg_sf (x : spec_float) : Prop :=
  match x with
  | S754_zero _ => True
  | S754_finite false _ _ => True
  | S754_infinity false => True
  | _ => False
  end.

Definition finite_sf (x : spec_float) : Prop :=
  match x with
  | S754_zero _ | S754_finite _ _ _ => True
  | _ => False
  end.

Lemma SFcompare_refl (x : spec_float) : x <> S754_nan -> SFcompare x x = Some Eq.
Proof.
  destruct x as [s|s| |s m e]; intros H; try congruence; simpl.
  - reflexivity.
  - destruct s; reflexivity.
  - rewrite Z.compare_refl, Pos.compare_cont_refl. destruct s; reflexivity.
Qed.

Lemma is_nan_Prim2SF (x : float) : is_nan x = false <-> Prim2SF x <> S754_nan.
Proof.
  unfold is_nan. rewrite eqb_spec. unfold SFeqb. split.
  - intros H E. rewrite E in H. simpl in H. discriminate.
  - intros H. rewrite (SFcompare_refl _ H). reflexivity.
Qed.

Lemma is_finite_Prim2SF (x : float) : is_finite x = true -> finite_sf (Prim2SF x).
Proof.
  unfold is_finite. rewrite negb_true_iff, orb_false_iff. intros [Hn Hi].
  apply is_nan_Prim2SF in Hn.
  unfold is_infinity in Hi. rewrite eqb_spec, abs_spec in Hi.
  change (Prim2SF infinity) with (S754_infinity false) in Hi.
  destruct (Prim2SF x) as [s|s| |s m e]; try exact I.
  - destruct s; vm_compute in Hi; discriminate.
  - congruence.
Qed.

Lemma shr_1_nonneg (mrs : shr_record) : (0 <= shr_m mrs)%Z -> (0 <= shr_m (shr_1 mrs))%Z.
Proof.
  destruct mrs as [m r s]. simpl. intros H.
  destruct m as [|p|p]; simpl; try lia; destruct p; simpl; lia.
Qed.

Lemma iter_pos_invariant {A : Type} (P : A -> Prop) (f : A -> A) :
  (forall a, P a -> P (f a)) -> forall n a, P a -> P (iter_pos f n a).
Proof.
  intros Hf. induction n as [n IH|n IH|]; intros a Ha; simpl; auto.
Qed.

Lemma shr_fexp_nonneg (m e : Z) (l : location) :
  (0 <= m)%Z -> (0 <= shr_m (fst (shr_fexp prec emax m e l)))%Z.
Proof.
  intros Hm. unfold shr_fexp, shr.
  assert (H0 : (0 <= shr_m (shr_record_of_loc m l))%Z).
  { destruct l as [|[ | | ]]; simpl; exact Hm. }
  destruct (fexp prec emax (Zdigits2 m + e) - e)%Z; simpl; try exact H0.
  apply (iter_pos_invariant (fun r => (0 <= shr_m r)%Z)); auto using shr_1_nonneg.
Qed.

Lemma round_nearest_even_nonneg (m : Z) (l : location) :
  (0 <= m)%Z -> (0 <= round_nearest_even m l)%Z.
Proof.
  intros Hm. destruct l as [|[ | | ]]; simpl; try lia. destruct (Z.even m); lia.
Qed.

Lemma binary_round_aux_nonneg (m e : Z) (l : location) :
  (0 <= m)%Z -> nonneg_sf (binary_round_aux prec emax false m e l).
Proof.
  intros Hm. unfold binary_round_aux.
  pose proof (shr_fexp_nonneg m e l Hm) as H1.
  destruct (shr_fexp prec emax m e l) as [mrs' e']. simpl in H1.
  pose proof (round_nearest_even_nonneg _ (loc_of_shr_record mrs') H1) as H2.
  pose proof (shr_fexp_nonneg _ e' loc_Exact H2) as H3.
  destruct (shr_fexp prec emax (round_nearest_even (shr_m mrs') (loc_of_shr_record mrs')) e' loc_Exact)
    as [mrs'' e''].
  simpl in H3. destruct (shr_m mrs'') as [|p|p]; simpl; try lia; auto.
  destruct (e'' <=? 971)%Z; exact I.
Qed.

(** A non-negative finite factor times an absolute value is non-negative. *)
Lemma mul_abs_nonneg (t r : float) :
  is_finite r = true -> is_finite t = true -> (0 <=? t) = true ->
  nonneg_sf (Prim2SF (t * abs r)).
Proof.
  intros Hr Ht H0. apply is_finite_Prim2SF in Hr, Ht.
  rewrite leb_spec in H0. change (Prim2SF 0) with (S754_zero false) in H0.
  rewrite mul_spec, abs_spec. unfold SF64mul.
  destruct (Prim2SF t) as [s|s| |s m e]; try contradiction;
    destruct (Prim2SF r) as [s'|s'| |s' m' e']; try contradiction; simpl; auto.
  - destruct s; try discriminate. simpl. apply binary_round_aux_nonneg. lia.
Qed.

Lemma nonneg_not_ltb_zero (x : float) : nonneg_sf (Prim2SF x) -> (x <? 0) = false.
Proof.
  intros H. rewrite ltb_spec. change (Prim2SF 0) with (S754_zero false).
  destruct (Prim2SF x) as [s|s| |s m e]; simpl in *; try contradiction; auto;
    destruct s; try contradiction; reflexivity.
Qed.

Lemma nonneg_not_nan (x : float) : nonneg_sf (Prim2SF x) -> is_nan x = false.
Proof.
  intros H. apply is_nan_Prim2SF. intros E. rewrite E in H. exact H.
Qed.

Lemma nonneg_leb_zero (x : float) : nonneg_sf (Prim2SF x) -> (0 <=? x) = true.
Proof.
  intros H. rewrite leb_spec. change (Prim2SF 0) with (S754_zero false).
  destruct (Prim2SF x) as [s|s| |s m e]; simpl in *; try contradiction; auto;
    destruct s; try contradiction; reflexivity.
Qed.

(** Equal values, the reference finite: their difference is [+0]. *)
Lemma eqb_sub_zero (v r : float) :
  (v =? r) = true -> is_finite r = true -> abs (r - v) = 0.
Proof.
  intros He Hr. apply is_finite_Prim2SF in Hr. rewrite eqb_spec in He.
  apply Prim2SF_inj. rewrite abs_spec, sub_spec.
  change (Prim2SF 0) with (S754_zero false).
  unfold SFeqb in He. unfold SF64sub.
  destruct (Prim2SF r) as [s|s| |s m e]; try contradiction;
    destruct (Prim2SF v) as [s'|s'| |s' m' e']; simpl in He; try discriminate;
    try (destruct s, s'; (reflexivity || discriminate)).
  assert (E : s' = s /\ e' = e /\ m' = m).
  { destruct s', s; try discriminate;
      destruct (Z.compare_spec e' e) as [E|E|E]; try discriminate;
      destruct (Pos.compare_cont Eq m' m) eqn:Em; try discriminate;
      apply (Pos.compare_eq m' m) in Em; auto. }
  destruct E as (-> & -> & ->). simpl. rewrite Z.sub_diag. reflexivity.
Qed.

Lemma finite_abs_not_nan (r : float) : is_finite r = true -> is_nan (abs r) = false.
Proof.
  intros Hr. apply is_finite_Prim2SF in Hr. apply is_nan_Prim2SF.
  rewrite abs_spec. destruct (Prim2SF r); simpl; try contradiction; discriminate.
Qed.

Lemma finite_not_infinity (r : float) : is_finite r = true -> is_infinity r = false.
Proof.
  unfold is_finite. rewrite negb_true_iff, orb_false_iff. tauto.
Qed.

Ltac fold_pos_compare :=
  repeat match goal with
  | H : context [PosDef.Pos.compare_cont Eq ?a ?b] |- _ =>
      change (PosDef.Pos.compare_cont Eq a b) with (Pos.compare a b) in H
  | |- context [PosDef.Pos.compare_cont Eq ?a ?b] =>
      change (PosDef.Pos.compare_cont Eq a b) with (Pos.compare a b)
  end.

Ltac split_compare :=
  repeat match goal with
  | H : context [Z.compare ?a ?b] |- _ => destruct (Z.compare_spec a b); try subst
  | |- context [Z.compare ?a ?b] => destruct (Z.compare_spec a b); try subst
  | H : context [Pos.compare ?a ?b] |- _ => destruct (Pos.compare_spec a b); try subst
  | |- context [Pos.compare ?a ?b] => destruct (Pos.compare_spec a b); try subst
  end.

Ltac sf_order :=
  unfold SFleb, SFltb, SFeqb; simpl; fold_pos_compare; split_compare; simpl in *;
  try discriminate; try reflexivity; try congruence; try lia.

Lemma SFleb_ltb_trans (a x y : spec_float) :
  SFleb a x = true -> SFltb x y = true -> SFleb a y = true.
Proof.
  destruct a as [[]|[]| |[] ma ea]; destruct x as [[]|[]| |[] mx ex];
    destruct y as [[]|[]| |[] my ey]; sf_order.
Qed.

Lemma SFleb_not_ltb_trans (a x y : spec_float) :
  SFleb a y = true -> SFltb x y = false -> x <> S754_nan -> SFleb a x = true.
Proof.
  destruct a as [[]|[]| |[] ma ea]; destruct x as [[]|[]| |[] mx ex];
    destruct y as [[]|[]| |[] my ey]; sf_order.
Qed.

Lemma SFltb_not_leb (a x : spec_float) : SFltb x a = true -> SFleb a x = false.
Proof.
  destruct a as [[]|[]| |[] ma ea]; destruct x as [[]|[]| |[] mx ex]; sf_order.
Qed.

Lemma SFabs_binary_round_aux (s : bool) (m e : Z) (l : location) :
  SFabs (binary_round_aux prec emax s m e l) = SFabs (binary_round_aux prec emax false m e l).
Proof.
  unfold binary_round_aux.
  destruct (shr_fexp prec emax m e l) as [mrs' e'].
  destruct (shr_fexp prec emax _ e' loc_Exact) as [mrs'' e''].
  destruct (shr_m mrs''); try reflexivity.
  destruct (e'' <=? emax - prec)%Z; reflexivity.
Qed.

Lemma SFabs_binary_normalize_opp (m e : Z) :
  SFabs (binary_normalize prec emax (- m) e false) = SFabs (binary_normalize prec emax m e false).
Proof.
  destruct m as [|p|p]; simpl; try reflexivity; unfold binary_round;
    destruct (shl_align p e _) as [mz ez];
    rewrite (SFabs_binary_round_aux true); reflexivity.
Qed.

Lemma SFabs_sub_comm (x y : spec_float) :
  SFabs (SF64sub x y) = SFabs (SF64sub y x).
Proof.
  destruct x as [sx|sx| |sx mx ex]; destruct y as [sy|sy| |sy my ey];
    try (destruct sx, sy; reflexivity); try (destruct sx; reflexivity);
    try (destruct sy; reflexivity); try reflexivity.
  unfold SF64sub, SFsub. rewrite (Z.min_comm ey ex).
  rewrite <- SFabs_binary_normalize_opp. f_equal. f_equal. lia.
Qed.

Lemma abs_sub_comm (x y : float) : abs (x - y) = abs (y - x).
Proof.
  apply Prim2SF_inj. rewrite !abs_spec, !sub_spec. apply SFabs_sub_comm.
Qed.

Lemma leb_py_max (a x y : float) :
  is_nan x = false ->
  (a <=? Pytest.py_max x y) = (a <=? x) || (a <=? y).
Proof.
  intros Hx. apply is_nan_Prim2SF in Hx.
  unfold Pytest.py_max. destruct (x <? y) eqn:E; rewrite ltb_spec in E.
  - destruct (a <=? x) eqn:Ea; [|reflexivity]. simpl.
    rewrite leb_spec in *. eapply SFleb_ltb_trans; eauto.
  - destruct (a <=? y) eqn:Ea; [|rewrite orb_false_r; reflexivity].
    rewrite orb_true_r. rewrite leb_spec in *. eapply SFleb_not_ltb_trans; eauto.
Qed.

Lemma ltb_not_leb (a x : float) : (x <? a) = true -> (a <=? x) = false.
Proof. rewrite ltb_spec, leb_spec. apply SFltb_not_leb. Qed.

Lemma leb_refl (x : float) : is_nan x = false -> (x <=? x) = true.
Proof.
  intros H. apply is_nan_Prim2SF in H. rewrite leb_spec. unfold SFleb.
  rewrite (SFcompare_refl _ H). reflexivity.
Qed.

End FloatFacts.

Section ApproxFacts.

Import FloatFacts.
Open Scope float_scope.

(** With a finite reference and a finite non-negative tolerance the library
    validates the tolerance, and the comparison is the inequality alone. *)
Lemma approx_eq_finite (v r t : float) :
  is_finite r = true -> is_finite t = true -> (0 <=? t) = true ->
  Pytest.approx_eq v r t
  = Ok (abs (r - v) <=? Pytest.py_max (t * abs r) Pytest.DEFAULT_ABSOLUTE_TOLERANCE).
Proof.
  intros Hr Ht H0.
  pose proof (mul_abs_nonneg t r Hr Ht H0) as Hnn.
  unfold Pytest.approx_eq. destruct (v =? r) eqn:E.
  - rewrite (eqb_sub_zero v r E Hr). f_equal. symmetry.
    unfold Pytest.py_max.
    destruct (t * abs r <? Pytest.DEFAULT_ABSOLUTE_TOLERANCE).
    + reflexivity.
    + apply nonneg_leb_zero, Hnn.
  - rewrite (finite_abs_not_nan r Hr), (finite_not_infinity r Hr).
    unfold Pytest.tolerance.
    rewrite (nonneg_not_ltb_zero _ Hnn), (nonneg_not_nan _ Hnn). reflexivity.
Qed.

End ApproxFacts.


(** ** Facts about dictionaries *)

Lemma dict_get_set_same {V : Type} (k : string) (v : V) (d : dict V) :
  dict_get k (dict_set k v d) = Some v.
Proof.
  induction d as [|[k' v'] d IH]; simpl.
  - rewrite String.eqb_refl. reflexivity.
  - destruct (String.eqb k k') eqn:E; simpl; rewrite E; auto.
Qed.

Lemma dict_get_set_other {V : Type} (k k' : string) (v : V) (d : dict V) :
  k' <> k -> dict_get k' (dict_set k v d) = dict_get k' d.
Proof.
  intros Hne. induction d as [|[k0 v0] d IH]; simpl.
  - apply String.eqb_neq in Hne. rewrite Hne. reflexivity.
  - destruct (String.eqb k k0) eqn:E; simpl.
    + apply String.eqb_eq in E. subst k0.
      apply String.eqb_neq in Hne. rewrite Hne. reflexivity.
    + rewrite IH. reflexivity.
Qed.

Lemma dict_get_None_keys {V : Type} (k : string) (d : dict V) :
  dict_get k d = None <-> ~ In k (keys d).
Proof.
  induction d as [|[k' v'] d IH]; simpl.
  - tauto.
  - destruct (String.eqb k k') eqn:E.
    + apply String.eqb_eq in E. subst. split; [discriminate | tauto].
    + apply String.eqb_neq in E. rewrite IH. split; [intros H [H'|H']; congruence | tauto].
Qed.

(** ** Facts about the statistics loop *)

Section CalculatorFacts.

Lemma dict_get_In {V : Type} (k : string) (v : V) (d : dict V) :
  dict_get k d = Some v -> In (k, v) d.
Proof.
  induction d as [|[k' v'] d IH]; simpl; [discriminate|].
  destruct (String.eqb k k') eqn:E.
  - apply String.eqb_eq in E. subst. intros H. inversion H. left. reflexivity.
  - intros H. right. auto.
Qed.

Lemma dict_set_new {V : Type} (k : string) (v : V) (d : dict V) :
  ~ In k (keys d) -> dict_set k v d = d ++ [(k, v)].
Proof.
  induction d as [|[k' v'] d IH]; simpl; intros H.
  - reflexivity.
  - destruct (String.eqb k k') eqn:E.
    + apply String.eqb_eq in E. subst. tauto.
    + rewrite IH by tauto. reflexivity.
Qed.

Lemma extremum_cells (pick : float -> float -> float) (a : Xr.DataArray) :
  has_cells a = true -> exists x, Xr.extremum pick a = Ok x.
Proof.
  destruct a as [|c a]; [discriminate|]. intros _. unfold Xr.extremum.
  destruct (Xr.notnull (c :: a)); eauto.
Qed.

Lemma band_statistics_fields (a : Xr.DataArray) :
  has_cells a = true ->
  exists record, band_statistics a = Ok record /\ keys record = statistic_names.
Proof.
  intros H. unfold band_statistics, Xr.min, Xr.max.
  destruct (extremum_cells Xr.fmin a H) as (lo & ->).
  destruct (extremum_cells Xr.fmax a H) as (hi & ->).
  simpl. eexists. split; reflexivity.
Qed.

Lemma calculate_loop_keys (hypercube : Xr.Dataset) (names : list string)
    (statistics : BandStatistics) :
  NoDup names ->
  (forall n, In n names -> ~ In n (keys statistics)) ->
  (forall n, In n names ->
             exists a, dict_get n (Xr.data_vars hypercube) = Some a /\ has_cells a = true) ->
  exists result,
    calculate_loop hypercube names statistics = Ok result
    /\ keys result = keys statistics ++ names
    /\ forall b record, In (b, record) result ->
                        In (b, record) statistics \/ keys record = statistic_names.
Proof.
  revert statistics. induction names as [|n names IH]; intros statistics Hnd Hfresh Hcells; simpl.
  - exists statistics. rewrite app_nil_r. auto.
  - inversion Hnd as [|? ? Hn Hnd']; subst.
    destruct (Hcells n (or_introl eq_refl)) as (a & Ha & Hc).
    unfold Xr.getitem. rewrite Ha. simpl.
    destruct (band_statistics_fields a Hc) as (record & -> & Hk). simpl.
    rewrite (dict_set_new n record statistics) by (apply Hfresh; left; reflexivity).
    destruct (IH (statistics ++ [(n, record)]) Hnd') as (result & Hr & Hkeys & Hrec).
    + intros n' Hn'. unfold keys. rewrite map_app, in_app_iff. simpl.
      intros [H|[H|[]]].
      * exact (Hfresh n' (or_intror Hn') H).
      * subst. contradiction.
    + intros n' Hn'. apply Hcells. right. exact Hn'.
    + exists result. split; [exact Hr|]. split.
      * rewrite Hkeys. unfold keys. rewrite map_app, <- app_assoc. reflexivity.
      * intros b rec Hin. destruct (Hrec b rec Hin) as [H|H]; [|right; exact H].
        apply in_app_iff in H. destruct H as [H|[H|[]]]; [left; exact H|].
        inversion H; subst. right. exact Hk.
Qed.

Lemma band_names_cells (hypercube : Xr.Dataset) (n : string) :
  bands_have_cells hypercube = true ->
  In n (band_names hypercube) ->
  exists a, dict_get n (Xr.data_vars hypercube) = Some a /\ has_cells a = true.
Proof.
  unfold bands_have_cells, band_names. intros Hc Hn.
  apply filter_In in Hn. destruct Hn as [Hin Hcrs].
  destruct (dict_get n (Xr.data_vars hypercube)) as [a|] eqn:Ea.
  - exists a. split; [reflexivity|].
    apply dict_get_In in Ea. rewrite forallb_forall in Hc.
    specialize (Hc _ Ea). simpl in Hc.
    apply negb_true_iff in Hcrs. rewrite Hcrs in Hc. exact Hc.
  - apply dict_get_None_keys in Ea. contradiction.
Qed.

End CalculatorFacts.

(** ** Facts about the comparison loops *)

Section ComparatorFacts.

Variable World : Type.
Implicit Types st : state World.

Lemma logged_logged st (l1 l2 : list log_record) :
  logged (logged st l1) l2 = logged st (l1 ++ l2).
Proof. unfold logged. simpl. rewrite app_assoc. reflexivity. Qed.

Lemma logged_nil st : logged st [] = st.
Proof. destruct st. unfold logged. simpl. rewrite app_nil_r. reflexivity. Qed.



(** When every comparison passes the statistic loop returns, having logged a
    warning for each reference statistic that the output lacks. *)
Lemma stat_loop_pass b (o : StatDict) (g : list (string * float)) tol st :
  stats_pass o g tol = true ->
  exists l,
    assert_stat_loop b o g tol st = (Ok tt, logged st l)
    /\ forall s, In s (keys g) -> dict_get s o = None ->
                 In (LogRecord WARNING (stat_warning s b)) l.
Proof.
  revert st. induction g as [|[s r] g IH]; intros st Hp; simpl.
  - exists []. rewrite logged_nil. split; [reflexivity | intros s []].
  - simpl in Hp. apply andb_true_iff in Hp. destruct Hp as [Hs Hg].
    unfold stat_passes in Hs. simpl in Hs.
    destruct (dict_get s o) as [v|] eqn:Eg; unfold bind; simpl.
    + destruct (Pytest.approx_eq v r tol) as [[|]|e]; try discriminate. simpl.
      destruct (IH (logged st [LogRecord INFO (assertion_info b s)]) Hg) as (l & Hl & Hw).
      exists (LogRecord INFO (assertion_info b s) :: l).
      rewrite Hl, logged_logged. split; [reflexivity|].
      intros s' [<-|Hin] Hn; [congruence | right; auto].
    + destruct (IH (logged st [LogRecord WARNING (stat_warning s b)]) Hg) as (l & Hl & Hw).
      exists (LogRecord WARNING (stat_warning s b) :: l).
      rewrite Hl, logged_logged. split; [reflexivity|].
      intros s' [<-|Hin] Hn; [left; reflexivity | right; auto].
Qed.

Lemma band_loop_pass (items : list (string * StatDict)) (gt : BandStatistics) tol st :
  bands_pass items gt tol = true ->
  exists l,
    assert_band_loop items gt tol st = (Ok tt, logged st l)
    /\ (forall b, In b (keys items) -> dict_get b gt = None ->
                  In (LogRecord WARNING (band_warning b)) l)
    /\ (forall b o g s, In (b, o) items -> dict_get b gt = Some g ->
                        In s (keys g) -> dict_get s o = None ->
                        In (LogRecord WARNING (stat_warning s b)) l).
Proof.
  revert st. induction items as [|[b o] items IH]; intros st Hp; simpl.
  - exists []. rewrite logged_nil. split; [reflexivity|]. split; [intros b [] | intros b o g s []].
  - simpl in Hp. apply andb_true_iff in Hp. destruct Hp as [Hb Hrest].
    unfold band_passes in Hb. simpl in Hb.
    destruct (dict_get b gt) as [g|] eqn:Eg; unfold bind; simpl.
    + destruct (stat_loop_pass b o g tol st Hb) as (l1 & Hl1 & Hw1). rewrite Hl1.
      destruct (IH (logged st l1) Hrest) as (l2 & Hl2 & Hwb & Hws).
      exists (l1 ++ l2). rewrite Hl2, logged_logged. split; [reflexivity|]. split.
      * intros b' [<-|Hin] Hn; [congruence|]. apply in_or_app. right. auto.
      * intros b' o' g' s [E|Hin] Hg' Hs Hn; apply in_or_app.
        -- inversion E; subst. left. apply Hw1; congruence.
        -- right. eapply Hws; eauto.
    + destruct (IH (logged st [LogRecord WARNING (band_warning b)]) Hrest) as (l2 & Hl2 & Hwb & Hws).
      exists (LogRecord WARNING (band_warning b) :: l2).
      rewrite Hl2, logged_logged. split; [reflexivity|]. split.
      * intros b' [<-|Hin] Hn; [left; reflexivity | right; auto].
      * intros b' o' g' s [E|Hin] Hg' Hs Hn.
        -- inversion E; subst. congruence.
        -- right. eapply Hws; eauto.
Qed.



(** The statistic loop reads the output only at the reference's keys. *)
Lemma stat_loop_ext b (o o' : StatDict) (g : list (string * float)) tol st :
  (forall s, In s (keys g) -> dict_get s o = dict_get s o') ->
  assert_stat_loop b o g tol st = assert_stat_loop b o' g tol st.
Proof.
  revert st. induction g as [|[s r] g IH]; intros st H; simpl.
  - reflexivity.
  - rewrite <- (H s) by (left; reflexivity).
    destruct (dict_get s o) as [v|]; unfold bind; simpl.
    + destruct (Pytest.approx_eq v r tol) as [[|]|e]; simpl; auto.
      apply IH. intros s' Hs'. apply H. right. exact Hs'.
    + apply IH. intros s' Hs'. apply H. right. exact Hs'.
Qed.

(** The band loop reads the reference only at the output's keys. *)
Lemma band_loop_reference_ext (items : list (string * StatDict)) (gt gt' : BandStatistics) tol st :
  (forall b, In b (keys items) -> dict_get b gt' = dict_get b gt) ->
  assert_band_loop items gt' tol st = assert_band_loop items gt tol st.
Proof.
  revert st. induction items as [|[b o] items IH]; intros st H; simpl.
  - reflexivity.
  - rewrite (H b) by (left; reflexivity).
    destruct (dict_get b gt) as [g|]; unfold bind; simpl.
    + destruct (assert_stat_loop b o g tol st) as [[[]|e] st']; auto.
      apply IH. intros b' Hb'. apply H. right. exact Hb'.
    + apply IH. intros b' Hb'. apply H. right. exact Hb'.
Qed.

Lemma band_loop_output_set (items : list (string * StatDict)) (gt : BandStatistics)
    b (o : StatDict) (s : string) (v : float) tol st :
  dict_get b items = Some o ->
  (forall g, dict_get b gt = Some g -> ~ In s (keys g)) ->
  assert_band_loop (dict_set b (dict_set s v o) items) gt tol st
  = assert_band_loop items gt tol st.
Proof.
  revert st. induction items as [|[b' o'] items IH]; intros st Hb Hs; simpl in *.
  - discriminate.
  - destruct (String.eqb b b') eqn:E.
    + apply String.eqb_eq in E. subst b'. inversion Hb; subst o'. simpl.
      destruct (dict_get b gt) as [g|] eqn:Eg; [|reflexivity].
      unfold bind.
      rewrite (stat_loop_ext b (dict_set s v o) o g).
      * reflexivity.
      * intros s' Hs'. apply dict_get_set_other. intros ->. exact (Hs g eq_refl Hs').
    + simpl. destruct (dict_get b' gt) as [g|]; unfold bind; simpl.
      * destruct (assert_stat_loop b' o' g tol st) as [[[]|e] st']; auto.
      * apply IH; auto.
Qed.

End ComparatorFacts.

(** ** Facts about the scan of the reference records *)

Section LoaderFacts.

Variable World : Type.
Variable json_load_file : string -> World -> outcome json * World.
Implicit Types st : state World.

Lemma scan_records_skip (pre rest : list json) (scenario_name : string) :
  forallb (names_other scenario_name) pre = true ->
  scan_records (pre ++ rest) scenario_name = scan_records rest scenario_name.
Proof.
  induction pre as [|x pre IH]; simpl; intros H; [reflexivity|].
  apply andb_true_iff in H. destruct H as [Hx Hpre]. unfold names_other in Hx.
  destruct (py_getitem x "scenario_name") as [name|e]; [|discriminate]. simpl.
  apply negb_true_iff in Hx. rewrite Hx. auto.
Qed.

Lemma extract_run (scenario_name : string) st (all_reference_data : json) (w' : World)
    (records : list json) :
  json_load_file reference_file (world st) = (Ok all_reference_data, w') ->
  py_iter all_reference_data = Ok records ->
  extract_reference_band_statistics json_load_file scenario_name st
  = match scan_records records scenario_name with
    | Ok data => (Ok data, State w' (log st ++ [extracting_info scenario_name]))
    | Raise e =>
        (Raise e, State w' (log st ++ [extracting_info scenario_name; extracting_error e]))
    end.
Proof.
  intros Hload Hiter.
  unfold extract_reference_band_statistics, bind, try_except, external, lift, log_info,
    log_error, emit, logged, raise. simpl.
  rewrite Hload, Hiter. simpl.
  destruct (scan_records records scenario_name); simpl; [reflexivity|].
  rewrite <- app_assoc. reflexivity.
Qed.

End LoaderFacts.

(** * The properties of the specification *)

Section ComparatorClaims.

Variable World : Type.
Implicit Types st : state World.

Import FloatFacts.

Lemma approx_eq_within (v r t : float) :
  is_finite r = true -> is_finite t = true -> (0 <=? t) = true ->
  Pytest.approx_eq v r t = Ok (within_tolerance v r t).
Proof.
  intros Hr Ht H0. rewrite (approx_eq_finite v r t Hr Ht H0).
  unfold within_tolerance. rewrite (abs_sub_comm r v).
  rewrite leb_py_max; [reflexivity|].
  apply nonneg_not_nan, mul_abs_nonneg; assumption.
Qed.

Lemma single_comparison (band stat : string) (v r t : float) st :
  fst (assert_band_statistics [(band, [(stat, v)])] [(band, [(stat, r)])] t st)
  = match Pytest.approx_eq v r t with
    | Ok true => Ok tt
    | Ok false => Raise AssertionError
    | Raise e => Raise e
    end.
Proof.
  unfold assert_band_statistics, bind. simpl.
  rewrite !String.eqb_refl. unfold bind. simpl. rewrite !String.eqb_refl.
  unfold bind. simpl.
  destruct (Pytest.approx_eq v r t) as [[|]|e]; reflexivity.
Qed.

(** C1, as the code has it. A computed value [v] compared with a finite
    reference [r] under a finite, non-negative relative tolerance [t] passes
    exactly when
    [|v - r| <= t * |r|] or [|v - r|] is within the library-default absolute
    epsilon; otherwise the comparison fails with an assertion failure. A value
    exactly at the boundary passes; a value beyond both bounds fails. *)
Theorem tolerance_boundary (band stat : string) (v r t : float) st :
  is_finite r = true -> is_finite t = true -> (0 <=? t) = true ->
  (fst (assert_band_statistics [(band, [(stat, v)])] [(band, [(stat, r)])] t st) = Ok tt
   <-> within_tolerance v r t = true)
  /\ (fst (assert_band_statistics [(band, [(stat, v)])] [(band, [(stat, r)])] t st)
      = Raise AssertionError
      <-> within_tolerance v r t = false)
  /\ (abs (v - r) = t * abs r ->
      fst (assert_band_statistics [(band, [(stat, v)])] [(band, [(stat, r)])] t st) = Ok tt)
  /\ ((t * abs r <? abs (v - r)) = true ->
      (Pytest.DEFAULT_ABSOLUTE_TOLERANCE <? abs (v - r)) = true ->
      fst (assert_band_statistics [(band, [(stat, v)])] [(band, [(stat, r)])] t st)
      = Raise AssertionError).
Proof.
  intros Hr Ht H0.
  rewrite single_comparison, (approx_eq_within v r t Hr Ht H0).
  repeat split.
  - destruct (within_tolerance v r t); [reflexivity | discriminate].
  - intros ->. reflexivity.
  - destruct (within_tolerance v r t); [discriminate | reflexivity].
  - intros ->. reflexivity.
  - intros E. unfold within_tolerance. rewrite E, leb_refl; [reflexivity|].
    apply nonneg_not_nan, mul_abs_nonneg; assumption.
  - intros H1 H2. unfold within_tolerance.
    rewrite (ltb_not_leb _ _ H1), (ltb_not_leb _ _ H2). reflexivity.
Qed.

(** C9. With no computed band the comparison returns normally, whatever the
    reference and the tolerance: it logs its opening record and nothing else. *)
Theorem empty_output_passes (groundtruth : BandStatistics) (tolerance : float) st :
  assert_band_statistics [] groundtruth tolerance st
  = (Ok tt, logged st [LogRecord INFO comparing_info]).
Proof. reflexivity. Qed.


(** C8. Coverage is driven by the two inputs asymmetrically. A reference band
    that the computed output lacks is ignored: setting it to any value changes
    neither the outcome nor the log. A computed statistic whose key the
    reference's band mapping lacks is never checked: setting it to any value
    changes neither the outcome nor the log. *)
Theorem coverage_is_asymmetric (output groundtruth : BandStatistics) (tolerance : float) st :
  (forall b g,
      ~ In b (keys output) ->
      assert_band_statistics output (dict_set b g groundtruth) tolerance st
      = assert_band_statistics output groundtruth tolerance st)
  /\ (forall b o s v,
        dict_get b output = Some o ->
        (forall g, dict_get b groundtruth = Some g -> ~ In s (keys g)) ->
        assert_band_statistics (dict_set b (dict_set s v o) output) groundtruth tolerance st
        = assert_band_statistics output groundtruth tolerance st).
Proof.
  split.
  - intros b g Hb. unfold assert_band_statistics, bind. simpl.
    apply band_loop_reference_ext. intros b' Hb'.
    apply dict_get_set_other. intros ->. exact (Hb Hb').
  - intros b o s v Hb Hs. unfold assert_band_statistics, bind. simpl.
    apply band_loop_output_set; assumption.
Qed.

End ComparatorClaims.

(** C2, as the code has it. For a dataset whose data variables other than
    ["crs"] each hold at least one cell, [calculate_band_statistics] returns a
    mapping whose keys are exactly those variables, in the dataset's order
    (so N keys for N such variables, ["crs"] excluded), and every key maps to a
    record with exactly the seven fields mean, variance, min, max, quantile25,
    quantile50, quantile75, each a 64-bit float (by its type; finite or not). *)
Theorem calculate_keys_and_fields (hypercube : Xr.Dataset) :
  dict_wf (Xr.data_vars hypercube) ->
  bands_have_cells hypercube = true ->
  exists statistics,
    calculate_band_statistics hypercube = Ok statistics
    /\ keys statistics = band_names hypercube
    /\ length statistics
       = length (filter (fun name => negb (String.eqb name "crs"))
                        (keys (Xr.data_vars hypercube)))
    /\ ~ In "crs" (keys statistics)
    /\ forall b record, In (b, record) statistics -> keys record = statistic_names.
Proof.
  intros Hwf Hc. unfold calculate_band_statistics.
  destruct (calculate_loop_keys hypercube (band_names hypercube) [])
    as (result & Hr & Hk & Hrec).
  - apply NoDup_filter. exact Hwf.
  - intros n _ [].
  - intros n Hn. apply band_names_cells; assumption.
  - simpl in Hk. exists result. split; [exact Hr|]. split; [exact Hk|]. split; [|split].
    + rewrite <- (length_map fst). fold (keys result). rewrite Hk. reflexivity.
    + rewrite Hk. unfold band_names. rewrite filter_In. intros [_ H]. discriminate.
    + intros b record Hin. destruct (Hrec b record Hin) as [[]|H]. exact H.
Qed.

Lemma calculate_keys_and_fields_witness :
  exists statistics,
    calculate_band_statistics dataset_B02_crs = Ok statistics
    /\ keys statistics = band_names dataset_B02_crs
    /\ length statistics
       = length (filter (fun name => negb (String.eqb name "crs"))
                        (keys (Xr.data_vars dataset_B02_crs)))
    /\ ~ In "crs" (keys statistics)
    /\ forall b record, In (b, record) statistics -> keys record = statistic_names.
Proof.
  apply (calculate_keys_and_fields dataset_B02_crs).
  - unfold dict_wf. simpl. repeat constructor; simpl; intuition discriminate.
  - reflexivity.
Defined.

(** C2, as stated, fails: a band with an infinite cell has an infinite maximum. *)
Lemma statistics_not_always_finite :
  exists statistics record,
    calculate_band_statistics dataset_infinite = Ok statistics
    /\ dict_get "B02" statistics = Some record
    /\ dict_get "max" record = Some infinity
    /\ all_finite statistics = false.
Proof.
  eexists. eexists. vm_compute. repeat split; reflexivity.
Qed.

(** C3. For the single band ["B02"] with values [1,2,3,4] the statistics are
    mean 2.5, population variance 1.25, min 1, max 4 and quartiles 1.75, 2.5,
    3.25 (a ["crs"] variable besides changes nothing), and comparing them with
    a reference holding the same values under tolerance 0.01 returns normally. *)
Theorem example_B02 :
  calculate_band_statistics dataset_B02 = Ok statistics_B02
  /\ calculate_band_statistics dataset_B02_crs = Ok statistics_B02
  /\ forall (World : Type) (st : state World),
       fst (assert_band_statistics statistics_B02 statistics_B02 0.01 st) = Ok tt.
Proof.
  split; [vm_compute; reflexivity|]. split; [vm_compute; reflexivity|].
  intros World st. vm_compute. reflexivity.
Qed.

(** C4, as the code has it. When the reference file loads as a list, the
    records before the first match are mappings with another ['scenario_name']
    and the first matching record has a ['reference_data'], the loader returns
    that record's ['reference_data'] as stored (first match wins), having logged
    its opening record only. When every record is a mapping with another
    ['scenario_name'], it raises the not-found [ValueError], logged and
    re-raised. *)
Theorem first_match_wins (World : Type)
    (json_load_file : string -> World -> outcome json * World)
    (scenario_name : string) (st : state World) (w' : World) :
  (forall pre scenario_data post name data,
      json_load_file reference_file (world st)
      = (Ok (JArr (pre ++ scenario_data :: post)), w') ->
      forallb (names_other scenario_name) pre = true ->
      py_getitem scenario_data "scenario_name" = Ok name ->
      py_eq_str name scenario_name = true ->
      py_getitem scenario_data "reference_data" = Ok data ->
      extract_reference_band_statistics json_load_file scenario_name st
      = (Ok data, State w' (log st ++ [extracting_info scenario_name])))
  /\ (forall records,
        json_load_file reference_file (world st) = (Ok (JArr records), w') ->
        forallb (names_other scenario_name) records = true ->
        extract_reference_band_statistics json_load_file scenario_name st
        = (Raise (not_found scenario_name),
           State w' (log st ++ [extracting_info scenario_name;
                                extracting_error (not_found scenario_name)]))).
Proof.
  split.
  - intros pre scenario_data post name data Hload Hpre Hname Heq Hdata.
    rewrite (extract_run World json_load_file scenario_name st _ w' _ Hload eq_refl).
    rewrite (scan_records_skip pre _ scenario_name Hpre). simpl.
    rewrite Hname. simpl. rewrite Heq, Hdata. reflexivity.
  - intros records Hload Hall.
    rewrite (extract_run World json_load_file scenario_name st _ w' _ Hload eq_refl).
    rewrite <- (app_nil_r records), (scan_records_skip records [] scenario_name Hall).
    reflexivity.
Qed.

(** C10. When the scan meets a record that is not a mapping containing
    ['scenario_name'] before any match, the loader raises the [KeyError] or
    [TypeError] of that access, logged and re-raised, and not the not-found
    error, whatever the records after it hold. *)
Theorem malformed_record_raises (World : Type)
    (json_load_file : string -> World -> outcome json * World)
    (scenario_name : string) (st : state World) (w' : World)
    (pre post : list json) (scenario_data : json) :
  json_load_file reference_file (world st)
  = (Ok (JArr (pre ++ scenario_data :: post)), w') ->
  forallb (names_other scenario_name) pre = true ->
  has_scenario_name scenario_data = false ->
  exists e,
    (e = KeyError "scenario_name" \/ exists msg, e = TypeError msg)
    /\ e <> not_found scenario_name
    /\ extract_reference_band_statistics json_load_file scenario_name st
       = (Raise e, State w' (log st ++ [extracting_info scenario_name; extracting_error e])).
Proof.
  intros Hload Hpre Hbad.
  rewrite (extract_run World json_load_file scenario_name st _ w' _ Hload eq_refl).
  rewrite (scan_records_skip pre _ scenario_name Hpre). simpl.
  destruct scenario_data as [|b|x|s|items|members]; simpl in *;
    try (eexists; split; [right; eexists; reflexivity | split; [discriminate | reflexivity]]).
  unfold dict_mem in Hbad.
  destruct (dict_get "scenario_name" members); [discriminate|]. simpl.
  eexists. split; [left; reflexivity | split; [discriminate | reflexivity]].
Qed.

Section OrchestratorFacts.

Variable World : Type.
Variable Cube : Type.
Variable json_load_file : string -> World -> outcome json * World.
Variable execute_batch :
  Cube -> string -> string -> string -> dict string -> World -> outcome unit * World.
Variable open_dataset : string -> World -> outcome Xr.Dataset * World.
Variable assert_band_statistics_dyn : BandStatistics -> json -> float -> M World unit.

Variable cube : Cube.
Variables output_path scenario_name : string.

Local Abbreviation run :=
  (execute_and_assert json_load_file execute_batch open_dataset assert_band_statistics_dyn
     cube output_path scenario_name).

Local Abbreviation body :=
  (execute_and_assert_body json_load_file execute_batch open_dataset
     assert_band_statistics_dyn cube output_path scenario_name).

Local Abbreviation submit :=
  (execute_batch cube output_path scenario_name "benchmarking-creo" [("driver-memory", "1g")]).

Local Abbreviation load := (extract_reference_band_statistics json_load_file scenario_name).

Lemma handler_reraises (tolerance : option float) (st st' : state World) (e : exn) :
  body (tolerance_or_default tolerance) st = (Raise e, st') ->
  run tolerance st = (Raise e, logged st' [orchestrator_error e]).
Proof.
  intros H. unfold execute_and_assert, try_except.
  fold (tolerance_or_default tolerance). rewrite H. reflexivity.
Qed.

(** C7. An exception [e] raised by any of the five steps (job execution,
    dataset opening, statistics calculation, reference loading, comparison,
    the last on reference data of either shape) is logged by the orchestrator
    and re-raised as it is, the same [e]. The comparison runs at the tolerance
    given, and at the relative tolerance 0.01 when the argument is omitted. *)
Theorem orchestrator_logs_and_reraises (tolerance : option float) (st : state World) (e : exn) :
  (forall w1,
      submit (world st) = (Raise e, w1) ->
      run tolerance st = (Raise e, logged (State w1 (log st)) [orchestrator_error e]))
  /\ (forall w1 w2,
        submit (world st) = (Ok tt, w1) ->
        open_dataset output_path w1 = (Raise e, w2) ->
        run tolerance st = (Raise e, logged (State w2 (log st)) [orchestrator_error e]))
  /\ (forall w1 w2 output_cube,
        submit (world st) = (Ok tt, w1) ->
        open_dataset output_path w1 = (Ok output_cube, w2) ->
        calculate_band_statistics output_cube = Raise e ->
        run tolerance st = (Raise e, logged (State w2 (log st)) [orchestrator_error e]))
  /\ (forall w1 w2 output_cube statistics st',
        submit (world st) = (Ok tt, w1) ->
        open_dataset output_path w1 = (Ok output_cube, w2) ->
        calculate_band_statistics output_cube = Ok statistics ->
        load (State w2 (log st)) = (Raise e, st') ->
        run tolerance st = (Raise e, logged st' [orchestrator_error e]))
  /\ (forall w1 w2 output_cube statistics reference groundtruth st3,
        submit (world st) = (Ok tt, w1) ->
        open_dataset output_path w1 = (Ok output_cube, w2) ->
        calculate_band_statistics output_cube = Ok statistics ->
        load (State w2 (log st)) = (Ok reference, st3) ->
        band_dict_of_json reference = Some groundtruth ->
        (forall t st',
            assert_band_statistics statistics groundtruth t st3 = (Raise e, st') ->
            run (Some t) st = (Raise e, logged st' [orchestrator_error e]))
        /\ (forall st',
              assert_band_statistics statistics groundtruth 0.01 st3 = (Raise e, st') ->
              run None st = (Raise e, logged st' [orchestrator_error e]))
        /\ (forall t st',
              assert_band_statistics statistics groundtruth t st3 = (Ok tt, st') ->
              run (Some t) st = (Ok tt, st'))
        /\ (forall st',
              assert_band_statistics statistics groundtruth 0.01 st3 = (Ok tt, st') ->
              run None st = (Ok tt, st')))
  /\ (forall w1 w2 output_cube statistics reference st3,
        submit (world st) = (Ok tt, w1) ->
        open_dataset output_path w1 = (Ok output_cube, w2) ->
        calculate_band_statistics output_cube = Ok statistics ->
        load (State w2 (log st)) = (Ok reference, st3) ->
        band_dict_of_json reference = None ->
        (forall t st',
            assert_band_statistics_dyn statistics reference t st3 = (Raise e, st') ->
            run (Some t) st = (Raise e, logged st' [orchestrator_error e]))
        /\ (forall st',
              assert_band_statistics_dyn statistics reference 0.01 st3 = (Raise e, st') ->
              run None st = (Raise e, logged st' [orchestrator_error e])))
  /\ run None st = run (Some 0.01) st.
Proof.
  assert (Hcompare : forall tol w1 w2 output_cube statistics reference st3,
             submit (world st) = (Ok tt, w1) ->
             open_dataset output_path w1 = (Ok output_cube, w2) ->
             calculate_band_statistics output_cube = Ok statistics ->
             load (State w2 (log st)) = (Ok reference, st3) ->
             body tol st
             = match band_dict_of_json reference with
               | Some groundtruth => assert_band_statistics statistics groundtruth tol st3
               | None => assert_band_statistics_dyn statistics reference tol st3
               end).
  { intros tol w1 w2 output_cube statistics reference st3 H1 H2 H3 H4.
    unfold execute_and_assert_body, bind, external, lift. rewrite H1. simpl.
    rewrite H2, H3, H4. destruct (band_dict_of_json reference); reflexivity. }
  split; [|split; [|split; [|split; [|split; [|split]]]]].
  - intros w1 H1. apply handler_reraises.
    unfold execute_and_assert_body, bind, external. rewrite H1. reflexivity.
  - intros w1 w2 H1 H2. apply handler_reraises.
    unfold execute_and_assert_body, bind, external. rewrite H1. simpl. rewrite H2. reflexivity.
  - intros w1 w2 output_cube H1 H2 H3. apply handler_reraises.
    unfold execute_and_assert_body, bind, external, lift. rewrite H1. simpl.
    rewrite H2, H3. reflexivity.
  - intros w1 w2 output_cube statistics st' H1 H2 H3 H4. apply handler_reraises.
    unfold execute_and_assert_body, bind, external, lift. rewrite H1. simpl.
    rewrite H2, H3, H4. reflexivity.
  - intros w1 w2 output_cube statistics reference groundtruth st3 H1 H2 H3 H4 H5.
    split; [|split; [|split]].
    + intros t st' H6. apply handler_reraises. simpl.
      rewrite (Hcompare t _ _ _ _ _ _ H1 H2 H3 H4), H5. exact H6.
    + intros st' H6. apply handler_reraises. simpl.
      rewrite (Hcompare default_tolerance _ _ _ _ _ _ H1 H2 H3 H4), H5. exact H6.
    + intros t st' H6. unfold execute_and_assert, try_except. simpl.
      rewrite (Hcompare t _ _ _ _ _ _ H1 H2 H3 H4), H5, H6. reflexivity.
    + intros st' H6. unfold execute_and_assert, try_except. simpl.
      rewrite (Hcompare default_tolerance _ _ _ _ _ _ H1 H2 H3 H4), H5.
      unfold default_tolerance. rewrite H6. reflexivity.
  - intros w1 w2 output_cube statistics reference st3 H1 H2 H3 H4 H5. split.
    + intros t st' H6. apply handler_reraises. simpl.
      rewrite (Hcompare t _ _ _ _ _ _ H1 H2 H3 H4), H5. exact H6.
    + intros st' H6. apply handler_reraises. simpl.
      rewrite (Hcompare default_tolerance _ _ _ _ _ _ H1 H2 H3 H4), H5. exact H6.
  - reflexivity.
Qed.

End OrchestratorFacts.

(** * Worked inputs: witnesses and counterexamples *)

(** The tolerance boundary on concrete values: with reference 100 and
    tolerance 0.01 the value 101 passes and its successor fails; with
    reference 0 only the absolute epsilon is left. *)
Example boundary_value_passes :
  assert_band_statistics [("B02", [("mean", 101)])] [("B02", [("mean", 100)])] 0.01 st0
  = (Ok tt, logged st0 [LogRecord INFO comparing_info;
                        LogRecord INFO (assertion_info "B02" "mean")]).
Proof. vm_compute. reflexivity. Qed.

Example beyond_boundary_fails :
  fst (assert_band_statistics [("B02", [("mean", next_up 101)])] [("B02", [("mean", 100)])]
         0.01 st0)
  = Raise AssertionError.
Proof. vm_compute. reflexivity. Qed.

Example near_zero_reference :
  fst (assert_band_statistics [("B02", [("min", 1e-13)])] [("B02", [("min", 0)])] 0.01 st0)
  = Ok tt
  /\ fst (assert_band_statistics [("B02", [("min", 1e-11)])] [("B02", [("min", 0)])] 0.01 st0)
     = Raise AssertionError.
Proof. split; vm_compute; reflexivity. Qed.

Lemma tolerance_boundary_witness :
  fst (assert_band_statistics [("B02", [("mean", 101)])] [("B02", [("mean", 100)])] 0.01 st0)
  = Ok tt
  <-> within_tolerance 101 100 0.01 = true.
Proof.
  exact (proj1 (tolerance_boundary unit "B02" "mean" 101 100 0.01 st0
                  eq_refl eq_refl eq_refl)).
Defined.


(** The run of the same comparison: two warnings, then the fatal mismatch. *)
Example three_bands_run :
  assert_band_statistics output_three_bands reference_two_bands 0.01 st0
  = (Raise AssertionError,
     logged st0 [LogRecord INFO comparing_info;
                 LogRecord WARNING (band_warning "B01");
                 LogRecord WARNING (stat_warning "min" "B02");
                 LogRecord INFO (assertion_info "B02" "mean");
                 LogRecord INFO (assertion_info "B02" "max")]).
Proof. vm_compute. reflexivity. Qed.

Lemma coverage_is_asymmetric_witness :
  assert_band_statistics statistics_B02 (dict_set "B03" [("mean", 0)] statistics_B02) 0.01 st0
  = assert_band_statistics statistics_B02 statistics_B02 0.01 st0.
Proof.
  apply (proj1 (coverage_is_asymmetric unit statistics_B02 statistics_B02 0.01 st0)).
  simpl. intros [H|[]]. discriminate H.
Defined.

Lemma first_match_wins_witness :
  extract_reference_band_statistics (load_const file_two_matches) "s" st0
  = (Ok (reference_of 2.5), State tt (log st0 ++ [extracting_info "s"])).
Proof.
  exact (proj1 (first_match_wins unit (load_const file_two_matches) "s" st0 tt)
               [record "a" (reference_of 1)] (record "s" (reference_of 2.5))
               [record "s" (reference_of 3)] (JStr "s") (reference_of 2.5)
               eq_refl eq_refl eq_refl eq_refl eq_refl).
Defined.

(** C4, as stated, fails: the scenario is present in the file and the mapping
    returned for it is empty. *)
Lemma present_scenario_empty_mapping :
  fst (extract_reference_band_statistics (load_const file_empty_reference) "s" st0)
  = Ok (JObj [])
  /\ is_empty_mapping (JObj []) = true.
Proof. split; reflexivity. Qed.

Lemma malformed_record_raises_witness :
  exists e,
    (e = KeyError "scenario_name" \/ exists msg, e = TypeError msg)
    /\ e <> not_found "s"
    /\ extract_reference_band_statistics (load_const file_malformed) "s" st0
       = (Raise e, State tt (log st0 ++ [extracting_info "s"; extracting_error e])).
Proof.
  exact (malformed_record_raises unit (load_const file_malformed) "s" st0 tt
           [record "a" (reference_of 1)] [record "s" (reference_of 2.5)]
           (JObj [("scenario", JStr "s")]) eq_refl eq_refl eq_refl).
Defined.

Lemma orchestrator_logs_and_reraises_witness :
  execute_and_assert (load_const file_two_matches) failing_batch no_dataset no_dyn
    tt "out.nc" "s" None st0
  = (Raise job_failed, logged (State tt (log st0)) [orchestrator_error job_failed]).
Proof.
  exact (proj1 (orchestrator_logs_and_reraises unit unit (load_const file_two_matches)
                  failing_batch no_dataset no_dyn tt "out.nc" "s" None st0 job_failed)
               tt eq_refl).
Defined.

(** The whole pipeline on one world: the job succeeds, the dataset holds the
    band of C3, and the reference file holds its mean and max. *)
Example pipeline_passes :
  execute_and_assert (load_const (file_B02 2.5)) batch_done dataset_written no_dyn
    tt "out.nc" "s" None st0
  = (Ok tt,
     logged st0 [extracting_info "s";
                 LogRecord INFO comparing_info;
                 LogRecord INFO (assertion_info "B02" "mean");
                 LogRecord INFO (assertion_info "B02" "max")]).
Proof. vm_compute. reflexivity. Qed.

(** The same with a reference mean of 3: the mismatch is logged and re-raised. *)
Example pipeline_mismatch :
  execute_and_assert (load_const (file_B02 3)) batch_done dataset_written no_dyn
    tt "out.nc" "s" None st0
  = (Raise AssertionError,
     logged st0 [extracting_info "s";
                 LogRecord INFO comparing_info;
                 LogRecord INFO (assertion_info "B02" "mean");
                 orchestrator_error AssertionError]).
Proof. vm_compute. reflexivity. Qed.

(** A negative relative tolerance is rejected by the library, not compared. *)
Example negative_tolerance_rejected :
  fst (assert_band_statistics [("B02", [("mean", 1)])] [("B02", [("mean", 2)])] (-0.01) st0)
  = Raise (ValueError "relative tolerance can't be negative").
Proof. vm_compute. reflexivity. Qed.

(** A band whose cells are all missing has NaN statistics. *)
Example all_missing_band :
  calculate_band_statistics dataset_all_missing
  = Ok [("B02", [("mean", nan); ("variance", nan); ("min", nan); ("max", nan);
                 ("quantile25", nan); ("quantile50", nan); ("quantile75", nan)])].
Proof. vm_compute. reflexivity. Qed.

(** A data variable without cells has no minimum: the calculation raises. *)
Example empty_band_raises :
  exists msg, calculate_band_statistics (Xr.MkDataset [("B02", [])]) = Raise (ValueError msg).
Proof. eexists. vm_compute. reflexivity. Qed.

From Stdlib Require Import Permutation.

(** * Further properties of [utils.py] *)

(** ** [extract_reference_band_statistics] *)

Section LoaderProperties.

Variable World : Type.
Variable json_load_file : string -> World -> outcome json * World.
Implicit Types st : state World.

Local Abbreviation load := (extract_reference_band_statistics json_load_file).

Lemma extract_cases (scenario_name : string) st :
  load scenario_name st
  = let (loaded, w') := json_load_file reference_file (world st) in
    match (all_reference_data <- loaded ;;
           records <- py_iter all_reference_data ;;
           scan_records records scenario_name)%outcome with
    | Ok data => (Ok data, State w' (log st ++ [extracting_info scenario_name]))
    | Raise e =>
        (Raise e, State w' (log st ++ [extracting_info scenario_name; extracting_error e]))
    end.
Proof.
  unfold extract_reference_band_statistics, bind, try_except, external, lift, log_info,
    log_error, emit, logged, raise. simpl.
  destruct (json_load_file reference_file (world st)) as [[all_reference_data|e] w']; simpl.
  - destruct (py_iter all_reference_data) as [records|e]; simpl.
    + destruct (scan_records records scenario_name); simpl; [reflexivity|].
      rewrite <- app_assoc. reflexivity.
    + rewrite <- app_assoc. reflexivity.
  - rewrite <- app_assoc. reflexivity.
Qed.

(** X1. Whatever the file holds, the loader leaves the world as the file read
    left it and adds to the log its opening record, followed by one error
    record with the text of the exception exactly when it raises; a failure of
    the file read itself comes out unchanged. *)
Theorem loader_log_discipline (scenario_name : string) st :
  world (snd (load scenario_name st)) = snd (json_load_file reference_file (world st))
  /\ log (snd (load scenario_name st))
     = log st ++ extracting_info scenario_name
                 :: match fst (load scenario_name st) with
                    | Ok _ => []
                    | Raise e => [extracting_error e]
                    end
  /\ forall e, fst (json_load_file reference_file (world st)) = Raise e ->
               fst (load scenario_name st) = Raise e.
Proof.
  rewrite extract_cases.
  destruct (json_load_file reference_file (world st)) as [[all_reference_data|e] w']; simpl.
  - destruct (py_iter all_reference_data) as [records|e]; simpl.
    + destruct (scan_records records scenario_name); simpl; repeat split; discriminate.
    + repeat split; discriminate.
  - repeat split. intros e' H. exact H.
Qed.

Lemma getitem_raises (v : json) (key : string) (e : exn) :
  py_getitem v key = Raise e -> e = KeyError key \/ exists msg, e = TypeError msg.
Proof.
  destruct v as [|b|x|s|items|members]; simpl; intros H; inversion H; eauto.
  destruct (dict_get key members); inversion H1. auto.
Qed.

Lemma scan_records_not_found (records : list json) (scenario_name : string) :
  scan_records records scenario_name = Raise (not_found scenario_name)
  <-> forallb (names_other scenario_name) records = true.
Proof.
  induction records as [|x records IH]; simpl.
  - split; reflexivity.
  - unfold names_other at 1.
    destruct (py_getitem x "scenario_name") as [name|e] eqn:En; simpl.
    + destruct (py_eq_str name scenario_name); simpl.
      * split; [|discriminate]. intros H.
        apply getitem_raises in H. destruct H as [H|[msg H]]; discriminate.
      * exact IH.
    + split; [|discriminate]. intros H. inversion H. subst e.
      apply getitem_raises in En. destruct En as [H'|[msg H']]; discriminate.
Qed.

(** X2. For a reference file that loads as a list, the loader raises the
    not-found error exactly when every record is a mapping whose
    ['scenario_name'] differs from the requested name. *)
Theorem not_found_iff_no_record_matches (scenario_name : string) st
    (records : list json) (w' : World) :
  json_load_file reference_file (world st) = (Ok (JArr records), w') ->
  (fst (load scenario_name st) = Raise (not_found scenario_name)
   <-> forallb (names_other scenario_name) records = true).
Proof.
  intros Hload. rewrite extract_cases, Hload. simpl.
  rewrite <- scan_records_not_found.
  destruct (scan_records records scenario_name); simpl; split; congruence.
Qed.

Lemma py_eq_str_true (v : json) (s : string) : py_eq_str v s = true -> v = JStr s.
Proof.
  destruct v; simpl; try discriminate. intros H. apply String.eqb_eq in H. congruence.
Qed.

Lemma getitem_Ok (v : json) (key : string) (x : json) :
  py_getitem v key = Ok x -> exists members, v = JObj members /\ dict_get key members = Some x.
Proof.
  destruct v as [|b|y|s|items|members]; simpl; try discriminate.
  destruct (dict_get key members) eqn:E; [|discriminate].
  intros H. inversion H. subst. eauto.
Qed.

Lemma scan_records_Ok (records : list json) (scenario_name : string) (data : json) :
  scan_records records scenario_name = Ok data ->
  exists pre members post,
    records = pre ++ JObj members :: post
    /\ forallb (names_other scenario_name) pre = true
    /\ dict_get "scenario_name" members = Some (JStr scenario_name)
    /\ dict_get "reference_data" members = Some data.
Proof.
  induction records as [|x records IH]; simpl; [discriminate|].
  destruct (py_getitem x "scenario_name") as [name|e] eqn:En; simpl; [|discriminate].
  destruct (py_eq_str name scenario_name) eqn:Eq.
  - intros Hd. apply py_eq_str_true in Eq. subst name.
    apply getitem_Ok in En. destruct En as (members & -> & Hn).
    simpl in Hd. destruct (dict_get "reference_data" members) eqn:Ed; [|discriminate].
    inversion Hd. subst. exists [], members, records. auto.
  - intros H. destruct (IH H) as (pre & members & post & -> & Hpre & Hn & Hd).
    exists (x :: pre), members, post. simpl. unfold names_other at 1.
    rewrite En, Eq. simpl. auto.
Qed.

Lemma scan_strings_raises (keys : list string) (scenario_name : string) (data : json) :
  scan_records (map JStr keys) scenario_name <> Ok data.
Proof. destruct keys; simpl; discriminate. Qed.

(** X3. Data comes out of the loader only from a list document and only from
    its first matching record: when the loader returns [data], the file is a
    list, every record before some mapping has another ['scenario_name'], and
    that mapping holds the requested name and [data] as its
    ['reference_data']. *)
Theorem returned_data_is_first_match (scenario_name : string) st (data : json)
    (st' : state World) :
  load scenario_name st = (Ok data, st') ->
  exists pre members post,
    fst (json_load_file reference_file (world st)) = Ok (JArr (pre ++ JObj members :: post))
    /\ forallb (names_other scenario_name) pre = true
    /\ dict_get "scenario_name" members = Some (JStr scenario_name)
    /\ dict_get "reference_data" members = Some data.
Proof.
  rewrite extract_cases.
  destruct (json_load_file reference_file (world st)) as [[all_reference_data|e] w']; simpl;
    [|discriminate].
  destruct all_reference_data as [|b|x|s|items|members]; simpl; try discriminate.
  - destruct (scan_records _ scenario_name) as [d|e] eqn:Es; [|discriminate].
    exfalso. revert Es.
    rewrite <- (map_map (fun c => String c EmptyString) JStr). apply scan_strings_raises.
  - destruct (scan_records items scenario_name) as [d|e] eqn:Es; [|discriminate].
    intros H. inversion H. subst.
    destruct (scan_records_Ok items scenario_name data Es) as (pre & ms & post & -> & H1 & H2 & H3).
    exists pre, ms, post. auto.
  - destruct (scan_records _ scenario_name) as [d|e] eqn:Es; [|discriminate].
    exfalso. revert Es. rewrite <- (map_map fst JStr). apply scan_strings_raises.
Qed.

(** X4. A matching record without ['reference_data'] raises the [KeyError] of
    that access, logged and re-raised; the records after it are not consulted. *)
Theorem matching_record_without_data (scenario_name : string) st (w' : World)
    (pre post : list json) (members : list (string * json)) :
  json_load_file reference_file (world st) = (Ok (JArr (pre ++ JObj members :: post)), w') ->
  forallb (names_other scenario_name) pre = true ->
  dict_get "scenario_name" members = Some (JStr scenario_name) ->
  dict_get "reference_data" members = None ->
  load scenario_name st
  = (Raise (KeyError "reference_data"),
     State w' (log st ++ [extracting_info scenario_name;
                          extracting_error (KeyError "reference_data")])).
Proof.
  intros Hload Hpre Hn Hd. rewrite extract_cases, Hload. simpl.
  rewrite (scan_records_skip pre _ scenario_name Hpre). simpl.
  rewrite Hn. simpl. rewrite String.eqb_refl, Hd. reflexivity.
Qed.

End LoaderProperties.

(** ** [assert_band_statistics] *)

(** No statistic is NaN. *)
Definition no_nan (statistics : BandStatistics) : bool :=
  forallb (fun band => forallb (fun stat => negb (is_nan (snd stat))) (snd band)) statistics.

(** A record below the error level. *)
Definition below_error (r : log_record) : bool :=
  match lvl r with
  | ERROR => false
  | _ => true
  end.

Section ComparatorProperties.

Variable World : Type.
Implicit Types st : state World.

Lemma stat_loop_returns b (o : StatDict) (g : list (string * float)) tol st (st' : state World) :
  assert_stat_loop b o g tol st = (Ok tt, st') -> stats_pass o g tol = true.
Proof.
  revert st. induction g as [|[s r] g IH]; intros st; simpl; [reflexivity|].
  unfold stat_passes. simpl.
  destruct (dict_get s o) as [v|]; unfold bind; simpl.
  - destruct (Pytest.approx_eq v r tol) as [[|]|e]; simpl; try discriminate. apply IH.
  - apply IH.
Qed.

Lemma band_loop_returns (items : list (string * StatDict)) (gt : BandStatistics) tol st
    (st' : state World) :
  assert_band_loop items gt tol st = (Ok tt, st') -> bands_pass items gt tol = true.
Proof.
  revert st. induction items as [|[b o] items IH]; intros st; simpl; [reflexivity|].
  unfold band_passes. simpl.
  destruct (dict_get b gt) as [g|]; unfold bind; simpl.
  - destruct (assert_stat_loop b o g tol st) as [[[]|e] st1] eqn:E; [|discriminate].
    intros H. rewrite (stat_loop_returns b o g tol st st1 E). simpl. eapply IH; eauto.
  - apply IH.
Qed.

Lemma returns_iff_bands_pass (output groundtruth : BandStatistics) (tolerance : float) st :
  fst (assert_band_statistics output groundtruth tolerance st) = Ok tt
  <-> bands_pass output groundtruth tolerance = true.
Proof.
  unfold assert_band_statistics, bind. simpl. split.
  - destruct (assert_band_loop output groundtruth tolerance _) as [[[]|e] st'] eqn:E;
      [|discriminate].
    intros _. eapply band_loop_returns; eauto.
  - intros Hp.
    destruct (band_loop_pass World output groundtruth tolerance
                (logged st [LogRecord INFO comparing_info]) Hp) as (l & -> & _).
    reflexivity.
Qed.

(** X5. The comparison returns normally exactly when every statistic present on
    both sides compares equal within the tolerance, and raises otherwise. *)
Theorem passes_iff_all_within (output groundtruth : BandStatistics) (tolerance : float) st :
  (fst (assert_band_statistics output groundtruth tolerance st) = Ok tt
   <-> bands_pass output groundtruth tolerance = true)
  /\ (bands_pass output groundtruth tolerance = false ->
      exists e, fst (assert_band_statistics output groundtruth tolerance st) = Raise e).
Proof.
  split; [apply returns_iff_bands_pass|].
  intros Hf. pose proof (returns_iff_bands_pass output groundtruth tolerance st) as H.
  destruct (fst (assert_band_statistics output groundtruth tolerance st)) as [[]|e].
  - rewrite (proj1 H eq_refl) in Hf. discriminate.
  - eauto.
Qed.

Lemma stat_loop_frame b (o : StatDict) (g : list (string * float)) tol st :
  exists l, snd (assert_stat_loop b o g tol st) = logged st l
            /\ forallb below_error l = true.
Proof.
  revert st. induction g as [|[s r] g IH]; intros st; simpl.
  - exists []. rewrite logged_nil. auto.
  - destruct (dict_get s o) as [v|]; unfold bind; simpl.
    + destruct (Pytest.approx_eq v r tol) as [[|]|e]; simpl.
      * destruct (IH (logged st [LogRecord INFO (assertion_info b s)])) as (l & -> & Hl).
        exists (LogRecord INFO (assertion_info b s) :: l). rewrite logged_logged. auto.
      * exists [LogRecord INFO (assertion_info b s)]. auto.
      * exists [LogRecord INFO (assertion_info b s)]. auto.
    + destruct (IH (logged st [LogRecord WARNING (stat_warning s b)])) as (l & -> & Hl).
      exists (LogRecord WARNING (stat_warning s b) :: l). rewrite logged_logged. auto.
Qed.

Lemma band_loop_frame (items : list (string * StatDict)) (gt : BandStatistics) tol st :
  exists l, snd (assert_band_loop items gt tol st) = logged st l
            /\ forallb below_error l = true.
Proof.
  revert st. induction items as [|[b o] items IH]; intros st; simpl.
  - exists []. rewrite logged_nil. auto.
  - destruct (dict_get b gt) as [g|]; unfold bind; simpl.
    + destruct (stat_loop_frame b o g tol st) as (l1 & H1 & Hl1).
      destruct (assert_stat_loop b o g tol st) as [[[]|e] st1]; simpl in H1; subst st1.
      * destruct (IH (logged st l1)) as (l2 & -> & Hl2).
        exists (l1 ++ l2). rewrite logged_logged, forallb_app, Hl1, Hl2. auto.
      * exists l1. auto.
    + destruct (IH (logged st [LogRecord WARNING (band_warning b)])) as (l & -> & Hl).
      exists (LogRecord WARNING (band_warning b) :: l). rewrite logged_logged. auto.
Qed.

Lemma comparison_frame (output groundtruth : BandStatistics) (tolerance : float) st :
  exists l,
    snd (assert_band_statistics output groundtruth tolerance st)
    = logged st (LogRecord INFO comparing_info :: l)
    /\ forallb below_error l = true.
Proof.
  unfold assert_band_statistics, bind. simpl.
  destruct (band_loop_frame output groundtruth tolerance
              (logged st [LogRecord INFO comparing_info])) as (l & Hl & Hb).
  exists l. split; [|exact Hb].
  destruct (assert_band_loop output groundtruth tolerance _) as [[[]|e] st'];
    simpl in *; subst; rewrite logged_logged; reflexivity.
Qed.

(** X6. The comparison leaves the world alone and only appends to the log: its
    opening record, then information and warning records, never an error
    record, whether it returns or raises. *)
Theorem comparison_only_appends (output groundtruth : BandStatistics) (tolerance : float) st :
  world (snd (assert_band_statistics output groundtruth tolerance st)) = world st
  /\ exists l,
       log (snd (assert_band_statistics output groundtruth tolerance st))
       = log st ++ LogRecord INFO comparing_info :: l
       /\ forallb below_error l = true.
Proof.
  destruct (comparison_frame output groundtruth tolerance st) as (l & -> & Hb).
  split; [reflexivity|]. exists l. auto.
Qed.

Lemma stat_loop_raises b (o : StatDict) (g : list (string * float)) tol st
    (e : exn) (st' : state World) :
  assert_stat_loop b o g tol st = (Raise e, st') ->
  exists s r v, In (s, r) g /\ dict_get s o = Some v
                /\ (e = AssertionError /\ Pytest.approx_eq v r tol = Ok false
                    \/ Pytest.approx_eq v r tol = Raise e).
Proof.
  revert st. induction g as [|[s r] g IH]; intros st; simpl; [discriminate|].
  destruct (dict_get s o) as [v|] eqn:Eg; unfold bind; simpl.
  - destruct (Pytest.approx_eq v r tol) as [[|]|e'] eqn:Ea; simpl.
    + intros H. destruct (IH _ H) as (s' & r' & v' & Hin & Hrest).
      exists s', r', v'. split; [right; exact Hin | exact Hrest].
    + intros H. inversion H. subst. exists s, r, v. rewrite Ea. auto.
    + intros H. inversion H. subst. exists s, r, v. rewrite Ea. auto.
  - intros H. destruct (IH _ H) as (s' & r' & v' & Hin & Hrest).
    exists s', r', v'. split; [right; exact Hin | exact Hrest].
Qed.

Lemma band_loop_raises (items : list (string * StatDict)) (gt : BandStatistics) tol st
    (e : exn) (st' : state World) :
  assert_band_loop items gt tol st = (Raise e, st') ->
  exists b o g s r v,
    In (b, o) items /\ dict_get b gt = Some g /\ In (s, r) g /\ dict_get s o = Some v
    /\ (e = AssertionError /\ Pytest.approx_eq v r tol = Ok false
        \/ Pytest.approx_eq v r tol = Raise e).
Proof.
  revert st. induction items as [|[b o] items IH]; intros st; simpl; [discriminate|].
  destruct (dict_get b gt) as [g|] eqn:Eg; unfold bind; simpl.
  - destruct (assert_stat_loop b o g tol st) as [[[]|e'] st1] eqn:E.
    + intros H. destruct (IH _ H) as (b' & o' & g' & s & r & v & Hin & Hrest).
      exists b', o', g', s, r, v. split; [right; exact Hin | exact Hrest].
    + intros H. inversion H. subst.
      destruct (stat_loop_raises b o g tol st e st' E) as (s & r & v & Hin & Hv & Hc).
      exists b, o, g, s, r, v. auto.
  - intros H. destruct (IH _ H) as (b' & o' & g' & s & r & v & Hin & Hrest).
    exists b', o', g', s, r, v. split; [right; exact Hin | exact Hrest].
Qed.

(** X7. The comparison raises only at a comparison: whenever it raises, some
    statistic present in a computed band and in the reference for that band
    was being compared, and the exception is the assertion failure for a
    comparison that returned false, or the exception that the approximate
    equality itself raised there. Missing bands, missing statistics and the
    lookups of the function raise nothing. *)
Theorem comparison_raises_at_a_comparison (output groundtruth : BandStatistics)
    (tolerance : float) st (e : exn) :
  fst (assert_band_statistics output groundtruth tolerance st) = Raise e ->
  exists b o g s r v,
    In (b, o) output /\ dict_get b groundtruth = Some g /\ In (s, r) g
    /\ dict_get s o = Some v
    /\ (e = AssertionError /\ Pytest.approx_eq v r tolerance = Ok false
        \/ Pytest.approx_eq v r tolerance = Raise e).
Proof.
  unfold assert_band_statistics, bind. simpl.
  destruct (assert_band_loop output groundtruth tolerance _) as [[[]|e'] st'] eqn:E;
    [discriminate|].
  simpl. intros H. inversion H. subst e'.
  exact (band_loop_raises output groundtruth tolerance _ e st' E).
Qed.

Lemma dict_get_wf {V : Type} (k : string) (v : V) (d : dict V) :
  dict_wf d -> In (k, v) d -> dict_get k d = Some v.
Proof.
  unfold dict_wf. induction d as [|[k' v'] d IH]; simpl; intros Hnd Hin; [contradiction|].
  inversion Hnd as [|? ? Hk Hnd']; subst.
  destruct Hin as [E|Hin].
  - inversion E. subst. rewrite String.eqb_refl. reflexivity.
  - destruct (String.eqb k k') eqn:E.
    + apply String.eqb_eq in E. subst k'. exfalso. apply Hk.
      change k with (fst (k, v)). apply in_map. exact Hin.
    + auto.
Qed.

Lemma approx_eq_same (v t : float) : is_nan v = false -> Pytest.approx_eq v v t = Ok true.
Proof.
  unfold is_nan, Pytest.approx_eq. intros H. apply negb_false_iff in H. rewrite H. reflexivity.
Qed.

Lemma approx_eq_nan_reference (v r t : float) :
  is_nan r = true -> Pytest.approx_eq v r t = Ok false.
Proof.
  intros Hr. unfold Pytest.approx_eq.
  assert (Hn : Prim2SF r = S754_nan).
  { destruct (Prim2SF r) eqn:E; try reflexivity;
      assert (Hf : is_nan r = false) by (apply FloatFacts.is_nan_Prim2SF; congruence);
      congruence. }
  assert (E1 : (v =? r) = false).
  { rewrite eqb_spec, Hn. unfold SFeqb. destruct (Prim2SF v); reflexivity. }
  assert (E2 : is_nan (abs r) = true).
  { unfold is_nan. rewrite eqb_spec, abs_spec, Hn. reflexivity. }
  rewrite E1, E2. reflexivity.
Qed.

Lemma stats_pass_self (o g : StatDict) tol :
  dict_wf o -> (forall s v, In (s, v) g -> In (s, v) o) ->
  forallb (fun stat => negb (is_nan (snd stat))) g = true ->
  stats_pass o g tol = true.
Proof.
  intros Hwf Hsub Hn. unfold stats_pass. apply forallb_forall. intros [s v] Hin.
  unfold stat_passes. simpl. rewrite (dict_get_wf s v o Hwf (Hsub s v Hin)).
  rewrite forallb_forall in Hn. specialize (Hn _ Hin). simpl in Hn.
  apply negb_true_iff in Hn. rewrite (approx_eq_same v tol Hn). reflexivity.
Qed.

(** X8. Statistics compared with themselves pass under every tolerance, also
    a negative or NaN one, as long as no statistic is NaN; a NaN reference
    value fails against every value, NaN included. *)
Theorem self_comparison (output : BandStatistics) (tolerance : float) st :
  (dict_wf output -> Forall (fun band => dict_wf (snd band)) output ->
   no_nan output = true ->
   fst (assert_band_statistics output output tolerance st) = Ok tt)
  /\ (forall band stat v r, is_nan r = true ->
        fst (assert_band_statistics [(band, [(stat, v)])] [(band, [(stat, r)])] tolerance st)
        = Raise AssertionError).
Proof.
  split.
  - intros Hwf Hwfs Hn.
    unfold assert_band_statistics, bind. simpl.
    assert (Hp : bands_pass output output tolerance = true).
    { unfold bands_pass. apply forallb_forall. intros [b o] Hin.
      unfold band_passes. simpl. rewrite (dict_get_wf b o output Hwf Hin).
      apply stats_pass_self.
      - rewrite Forall_forall in Hwfs. exact (Hwfs _ Hin).
      - auto.
      - unfold no_nan in Hn. rewrite forallb_forall in Hn. exact (Hn _ Hin). }
    destruct (band_loop_pass World output output tolerance
                (logged st [LogRecord INFO comparing_info]) Hp) as (l & -> & _).
    reflexivity.
  - intros band stat v r Hr. rewrite single_comparison.
    rewrite (approx_eq_nan_reference v r tolerance Hr). reflexivity.
Qed.

Lemma dict_get_perm {V : Type} (d d' : dict V) (k : string) :
  dict_wf d -> Permutation d d' -> dict_get k d' = dict_get k d.
Proof.
  intros Hwf Hp.
  assert (Hwf' : dict_wf d').
  { unfold dict_wf, keys in *. eapply Permutation_NoDup; [|exact Hwf].
    apply Permutation_map. exact Hp. }
  destruct (dict_get k d) as [v|] eqn:E.
  - apply dict_get_wf; [exact Hwf'|]. apply (Permutation_in _ Hp).
    apply dict_get_In. exact E.
  - destruct (dict_get k d') as [v|] eqn:E'; [|reflexivity].
    apply dict_get_In in E'. apply (Permutation_in _ (Permutation_sym Hp)) in E'.
    apply (dict_get_wf k v d Hwf) in E'. congruence.
Qed.

Lemma forallb_perm {A : Type} (f : A -> bool) (l l' : list A) :
  Permutation l l' -> forallb f l = forallb f l'.
Proof.
  induction 1; simpl; try congruence.
  destruct (f x), (f y); reflexivity.
Qed.

(** X9. Order matters only for what is reported first. Listing the bands of
    a well-formed reference in another order changes nothing at all, outcome
    or log; listing the computed bands in another order leaves unchanged
    whether the comparison passes. *)
Theorem order_independence (output groundtruth : BandStatistics) (tolerance : float) st :
  (forall groundtruth',
      dict_wf groundtruth -> Permutation groundtruth groundtruth' ->
      assert_band_statistics output groundtruth' tolerance st
      = assert_band_statistics output groundtruth tolerance st)
  /\ (forall output' (st' : state World),
        Permutation output output' ->
        (fst (assert_band_statistics output' groundtruth tolerance st') = Ok tt
         <-> fst (assert_band_statistics output groundtruth tolerance st) = Ok tt)).
Proof.
  split.
  - intros gt' Hwf Hp. unfold assert_band_statistics, bind. simpl.
    apply band_loop_reference_ext. intros b _. apply dict_get_perm; assumption.
  - intros output' st' Hp.
    rewrite !returns_iff_bands_pass. unfold bands_pass. rewrite (forallb_perm _ _ _ Hp). tauto.
Qed.

End ComparatorProperties.

(** ** [calculate_band_statistics] *)

(** The statistics band by band: every variable but ["crs"], in the dataset's
    order, each with the record of its own data; the first band whose
    reductions raise ends the calculation. *)
Fixpoint band_records (vars : list (string * Xr.DataArray)) : outcome BandStatistics :=
  match vars with
  | [] => Ok []
  | (name, band_data) :: rest =>
      if String.eqb name "crs" then band_records rest
      else (stats <- band_statistics band_data ;;
            others <- band_records rest ;;
            Ok ((name, stats) :: others))%outcome
  end.

Lemma calculate_loop_band_records (hypercube : Xr.Dataset)
    (vars : list (string * Xr.DataArray)) (statistics : BandStatistics) :
  (forall n a, In (n, a) vars -> dict_get n (Xr.data_vars hypercube) = Some a) ->
  dict_wf vars ->
  (forall n, In n (keys vars) -> ~ In n (keys statistics)) ->
  calculate_loop hypercube
    (filter (fun band_name => negb (String.eqb band_name "crs")) (keys vars)) statistics
  = (others <- band_records vars ;; Ok (statistics ++ others))%outcome.
Proof.
  revert statistics. induction vars as [|[n a] vars IH]; intros statistics Hget Hwf Hfresh; simpl.
  - rewrite app_nil_r. reflexivity.
  - inversion Hwf as [|? ? Hn Hwf']; subst.
    destruct (String.eqb n "crs") eqn:Ecrs; simpl.
    + apply IH; auto. intros n' a' Hin. apply Hget. right. exact Hin.
      intros n' Hin. apply Hfresh. right. exact Hin.
    + unfold Xr.getitem. rewrite (Hget n a (or_introl eq_refl)). simpl.
      destruct (band_statistics a) as [stats|e]; simpl; [|reflexivity].
      rewrite (dict_set_new n stats statistics) by (apply Hfresh; left; reflexivity).
      rewrite IH.
      * destruct (band_records vars); simpl; [|reflexivity].
        rewrite <- app_assoc. reflexivity.
      * intros n' a' Hin. apply Hget. right. exact Hin.
      * exact Hwf'.
      * intros n' Hin. unfold keys. rewrite map_app, in_app_iff. simpl.
        intros [H|[H|[]]].
        -- exact (Hfresh n' (or_intror Hin) H).
        -- subst. contradiction.
Qed.

Lemma calculate_band_records (hypercube : Xr.Dataset) :
  dict_wf (Xr.data_vars hypercube) ->
  calculate_band_statistics hypercube = band_records (Xr.data_vars hypercube).
Proof.
  intros Hwf. unfold calculate_band_statistics, band_names.
  rewrite (calculate_loop_band_records hypercube (Xr.data_vars hypercube) []).
  - destruct (band_records (Xr.data_vars hypercube)); reflexivity.
  - intros n a Hin. apply dict_get_wf; assumption.
  - exact Hwf.
  - intros n _ [].
Qed.

(** X10. The loop that fills the result dictionary computes the statistics
    band by band: the result lists every variable but ["crs"], in the
    dataset's order, each with the record computed from its own data alone,
    and the first band whose reductions raise ends the calculation with that
    exception. *)
Theorem calculate_is_per_band (hypercube : Xr.Dataset) :
  dict_wf (Xr.data_vars hypercube) ->
  calculate_band_statistics hypercube = band_records (Xr.data_vars hypercube).
Proof. exact (calculate_band_records hypercube). Qed.

Lemma band_records_set_crs (vars : list (string * Xr.DataArray)) (a : Xr.DataArray) :
  band_records (dict_set "crs" a vars) = band_records vars.
Proof.
  induction vars as [|[n b] vars IH]; [reflexivity|].
  cbn [dict_set]. destruct (String.eqb_spec "crs" n) as [<-|Hne]; cbn [band_records].
  - rewrite String.eqb_refl. reflexivity.
  - destruct (String.eqb_spec n "crs"); [congruence|]. rewrite IH. reflexivity.
Qed.

Lemma keys_dict_set {V : Type} (k : string) (v : V) (d : dict V) :
  keys (dict_set k v d) = if dict_mem k d then keys d else keys d ++ [k].
Proof.
  unfold dict_mem. induction d as [|[k' v'] d IH]; simpl; [reflexivity|].
  destruct (String.eqb k k') eqn:E; simpl; [reflexivity|].
  rewrite IH. destruct (dict_get k d); reflexivity.
Qed.

Lemma dict_set_wf {V : Type} (k : string) (v : V) (d : dict V) :
  dict_wf d -> dict_wf (dict_set k v d).
Proof.
  unfold dict_wf. intros Hwf. rewrite keys_dict_set. unfold dict_mem.
  destruct (dict_get k d) eqn:E; [exact Hwf|].
  apply dict_get_None_keys in E.
  apply NoDup_app; [exact Hwf | repeat constructor; intros [] |].
  intros x Hx [<-|[]]. contradiction.
Qed.

(** X11. The ["crs"] variable never contributes and cannot make the
    calculation fail: whatever its data, also none at all, the outcome is the
    one of the dataset without it. *)
Theorem crs_is_ignored (vars : dict Xr.DataArray) (crs_data : Xr.DataArray) :
  dict_wf vars ->
  calculate_band_statistics (Xr.MkDataset (dict_set "crs" crs_data vars))
  = calculate_band_statistics (Xr.MkDataset vars).
Proof.
  intros Hwf.
  rewrite (calculate_band_records (Xr.MkDataset (dict_set "crs" crs_data vars)))
    by (apply dict_set_wf; exact Hwf).
  rewrite (calculate_band_records (Xr.MkDataset vars)) by exact Hwf.
  simpl. apply band_records_set_crs.
Qed.

(** ** [extract_test_geometries] *)

Definition geometry_path (filename : string) : string := "./geofiles/" ++ filename.

Definition reading_info (filename : string) : log_record :=
  LogRecord INFO ("Reading geometries from " ++ geometry_path filename).

Definition reading_error (filename : string) (e : exn) : log_record :=
  LogRecord ERROR ("Error while reading geometries from " ++ geometry_path filename
                   ++ ": " ++ exn_str e).

(** X12. The geometry loader reads the file of that name under [./geofiles/]
    and hands on what the read gives, the collection or the exception as it
    is; it logs the path first and, exactly when the read fails, one error
    record with the path and the text of the exception. *)
Theorem geometries_pass_through (World : Type)
    (geojson_load_file : string -> World -> outcome json * World)
    (filename : string) (st : state World) :
  extract_test_geometries geojson_load_file filename st
  = (fst (geojson_load_file (geometry_path filename) (world st)),
     State (snd (geojson_load_file (geometry_path filename) (world st)))
           (log st ++ reading_info filename
                      :: match fst (geojson_load_file (geometry_path filename) (world st)) with
                         | Ok _ => []
                         | Raise e => [reading_error filename e]
                         end)).
Proof.
  unfold extract_test_geometries, reading_info, reading_error. cbv zeta.
  fold (geometry_path filename).
  unfold bind, try_except, external, log_info, log_error, emit, logged, raise.
  cbn [world log].
  destruct (geojson_load_file (geometry_path filename) (world st)) as [[g|e] w'];
    cbn [fst snd world log]; [reflexivity|].
  rewrite <- app_assoc. reflexivity.
Qed.

(** ** [execute_and_assert] *)

Section OrchestratorProperties.

Variable World : Type.
Variable Cube : Type.
Variable json_load_file : string -> World -> outcome json * World.
Variable execute_batch :
  Cube -> string -> string -> string -> dict string -> World -> outcome unit * World.
Variable open_dataset : string -> World -> outcome Xr.Dataset * World.
Variable assert_band_statistics_dyn : BandStatistics -> json -> float -> M World unit.

Variable cube : Cube.
Variables output_path scenario_name : string.

Local Abbreviation run :=
  (execute_and_assert json_load_file execute_batch open_dataset assert_band_statistics_dyn
     cube output_path scenario_name).

Local Abbreviation submit :=
  (execute_batch cube output_path scenario_name "benchmarking-creo" [("driver-memory", "1g")]).

Local Abbreviation load := (extract_reference_band_statistics json_load_file scenario_name).

Lemma run_after_calculation (tolerance : option float) (st : state World) (w1 w2 : World)
    (output_cube : Xr.Dataset) (statistics : BandStatistics) :
  submit (world st) = (Ok tt, w1) ->
  open_dataset output_path w1 = (Ok output_cube, w2) ->
  calculate_band_statistics output_cube = Ok statistics ->
  run tolerance st
  = try_except
      (bind load
         (fun reference =>
            match band_dict_of_json reference with
            | Some groundtruth =>
                assert_band_statistics statistics groundtruth (tolerance_or_default tolerance)
            | None =>
                assert_band_statistics_dyn statistics reference (tolerance_or_default tolerance)
            end))
      (fun e => bind (log_error ("Error during execution and assertion: " ++ exn_str e)%string)
                     (fun _ => raise e))
      (State w2 (log st)).
Proof.
  intros H1 H2 H3.
  unfold execute_and_assert, execute_and_assert_body, try_except, bind, external, lift.
  rewrite H1. simpl. rewrite H2, H3. reflexivity.
Qed.

(** X13. A failure of the reference loading, once the job has run and the
    statistics are computed, is logged twice, by the loader and then by the
    orchestrator, and comes out as the same exception; no comparison record is
    logged. *)
Theorem loading_failure_logged_twice (tolerance : option float) (st : state World)
    (w1 w2 : World) (output_cube : Xr.Dataset) (statistics : BandStatistics) (e : exn) :
  submit (world st) = (Ok tt, w1) ->
  open_dataset output_path w1 = (Ok output_cube, w2) ->
  calculate_band_statistics output_cube = Ok statistics ->
  fst (load (State w2 (log st))) = Raise e ->
  run tolerance st
  = (Raise e,
     State (snd (json_load_file reference_file w2))
           (log st ++ [extracting_info scenario_name; extracting_error e;
                       orchestrator_error e])).
Proof.
  intros H1 H2 H3 H4.
  rewrite (run_after_calculation tolerance st w1 w2 output_cube statistics H1 H2 H3).
  unfold try_except, bind. revert H4. rewrite extract_cases. simpl.
  destruct (json_load_file reference_file w2) as [loaded w3]. simpl.
  destruct (all_reference_data <- loaded ;; records <- py_iter all_reference_data ;;
            scan_records records scenario_name)%outcome; simpl; [discriminate|].
  intros H. inversion H. subst.
  unfold log_error, emit, logged, raise, orchestrator_error. simpl.
  rewrite <- app_assoc. reflexivity.
Qed.

(** X14. Once the job has run, the statistics are computed and the reference
    is loaded as a mapping band -> statistic -> number, the orchestrator called
    with a tolerance [t] returns normally exactly when every statistic present
    on both sides is within [t], and called without one exactly when every
    such statistic is within 0.01; it then adds to the log only the
    comparison's records, none of them an error. *)
Theorem run_passes_iff_all_within (st : state World)
    (w1 w2 : World) (output_cube : Xr.Dataset) (statistics groundtruth : BandStatistics)
    (reference : json) (st3 : state World) :
  submit (world st) = (Ok tt, w1) ->
  open_dataset output_path w1 = (Ok output_cube, w2) ->
  calculate_band_statistics output_cube = Ok statistics ->
  load (State w2 (log st)) = (Ok reference, st3) ->
  band_dict_of_json reference = Some groundtruth ->
  (forall t, fst (run (Some t) st) = Ok tt <-> bands_pass statistics groundtruth t = true)
  /\ (fst (run None st) = Ok tt <-> bands_pass statistics groundtruth 0.01 = true)
  /\ (forall tolerance,
        fst (run tolerance st) = Ok tt ->
        exists l, snd (run tolerance st) = logged st3 (LogRecord INFO comparing_info :: l)
                  /\ forallb below_error l = true).
Proof.
  intros H1 H2 H3 H4 H5.
  assert (Hrun : forall tolerance,
             (fst (run tolerance st) = Ok tt
              <-> bands_pass statistics groundtruth (tolerance_or_default tolerance) = true)
             /\ (fst (run tolerance st) = Ok tt ->
                 exists l,
                   snd (run tolerance st) = logged st3 (LogRecord INFO comparing_info :: l)
                   /\ forallb below_error l = true)).
  { intros tolerance.
    rewrite (run_after_calculation tolerance st w1 w2 output_cube statistics H1 H2 H3).
    unfold try_except, bind. rewrite H4, H5.
    pose proof (returns_iff_bands_pass World statistics groundtruth
                  (tolerance_or_default tolerance) st3) as Hiff.
    destruct (comparison_frame World statistics groundtruth
                (tolerance_or_default tolerance) st3) as (l & Hl & Hb).
    destruct (assert_band_statistics statistics groundtruth (tolerance_or_default tolerance) st3)
      as [[[]|e] st4]; simpl in *.
    - split; [exact Hiff|]. intros _. exists l. auto.
    - split; [|discriminate]. split; [discriminate|].
      intros Hp. apply Hiff in Hp. discriminate. }
  split; [|split].
  - intros t. exact (proj1 (Hrun (Some t))).
  - exact (proj1 (Hrun None)).
  - intros tolerance. exact (proj2 (Hrun tolerance)).
Qed.

End OrchestratorProperties.

(** ** Worked inputs of the further properties *)

Definition records_two_matches : list json :=
  [record "a" (reference_of 1); record "s" (reference_of 2.5); record "s" (reference_of 3)].

Definition file_without_data : json :=
  JArr [record "a" (reference_of 1); JObj [("scenario_name", JStr "s")];
        record "s" (reference_of 2.5)].

Definition load_failing : string -> unit -> outcome json * unit :=
  fun _ w => (Raise (ExternalError "FileNotFoundError" "No such file or directory"), w).

Lemma not_found_iff_no_record_matches_witness :
  fst (extract_reference_band_statistics (load_const file_two_matches) "b" st0)
  = Raise (not_found "b")
  <-> forallb (names_other "b") records_two_matches = true.
Proof.
  exact (not_found_iff_no_record_matches unit (load_const file_two_matches) "b" st0
           records_two_matches tt eq_refl).
Defined.

Lemma returned_data_is_first_match_witness :
  exists pre members post,
    fst (load_const file_two_matches reference_file (world st0))
    = Ok (JArr (pre ++ JObj members :: post))
    /\ forallb (names_other "s") pre = true
    /\ dict_get "scenario_name" members = Some (JStr "s")
    /\ dict_get "reference_data" members = Some (reference_of 2.5).
Proof.
  exact (returned_data_is_first_match unit (load_const file_two_matches) "s" st0
           (reference_of 2.5) (State tt [extracting_info "s"]) eq_refl).
Defined.

Lemma matching_record_without_data_witness :
  extract_reference_band_statistics (load_const file_without_data) "s" st0
  = (Raise (KeyError "reference_data"),
     State tt (log st0 ++ [extracting_info "s"; extracting_error (KeyError "reference_data")])).
Proof.
  exact (matching_record_without_data unit (load_const file_without_data) "s" st0 tt
           [record "a" (reference_of 1)] [record "s" (reference_of 2.5)]
           [("scenario_name", JStr "s")] eq_refl eq_refl eq_refl eq_refl).
Defined.

Lemma comparison_raises_at_a_comparison_witness :
  exists b o g s r v,
    In (b, o) output_three_bands /\ dict_get b reference_two_bands = Some g /\ In (s, r) g
    /\ dict_get s o = Some v
    /\ (AssertionError = AssertionError /\ Pytest.approx_eq v r 0.01 = Ok false
        \/ Pytest.approx_eq v r 0.01 = Raise AssertionError).
Proof.
  exact (comparison_raises_at_a_comparison unit output_three_bands reference_two_bands 0.01
           st0 AssertionError eq_refl).
Defined.

Lemma self_comparison_witness :
  fst (assert_band_statistics statistics_B02 statistics_B02 (-1) st0) = Ok tt.
Proof.
  apply (proj1 (self_comparison unit statistics_B02 (-1) st0)).
  - unfold dict_wf. simpl. repeat constructor; simpl; intuition discriminate.
  - repeat constructor; unfold dict_wf; simpl;
      repeat constructor; simpl; intuition discriminate.
  - reflexivity.
Defined.

Lemma order_independence_witness :
  fst (assert_band_statistics (rev output_three_bands) reference_two_bands 0.01 st0) = Ok tt
  <-> fst (assert_band_statistics output_three_bands reference_two_bands 0.01 st0) = Ok tt.
Proof.
  apply (proj2 (order_independence unit output_three_bands reference_two_bands 0.01 st0)).
  apply Permutation_rev.
Defined.

Lemma calculate_is_per_band_witness :
  calculate_band_statistics dataset_B02_crs = band_records (Xr.data_vars dataset_B02_crs).
Proof.
  apply (calculate_is_per_band dataset_B02_crs).
  unfold dict_wf. simpl. repeat constructor; simpl; intuition discriminate.
Defined.

Lemma crs_is_ignored_witness :
  calculate_band_statistics (Xr.MkDataset (dict_set "crs" [] [("B02", [1; 2; 3; 4])]))
  = calculate_band_statistics (Xr.MkDataset [("B02", [1; 2; 3; 4])]).
Proof.
  apply (crs_is_ignored [("B02", [1; 2; 3; 4])] []).
  unfold dict_wf. simpl. repeat constructor; simpl; intuition discriminate.
Defined.

Lemma loading_failure_logged_twice_witness :
  execute_and_assert load_failing batch_done dataset_written no_dyn tt "out.nc" "s" None st0
  = (Raise (ExternalError "FileNotFoundError" "No such file or directory"),
     State (snd (load_failing reference_file tt))
           (log st0 ++ [extracting_info "s";
                        extracting_error
                          (ExternalError "FileNotFoundError" "No such file or directory");
                        orchestrator_error
                          (ExternalError "FileNotFoundError" "No such file or directory")])).
Proof.
  exact (loading_failure_logged_twice unit unit load_failing batch_done dataset_written no_dyn
           tt "out.nc" "s" None st0 tt tt dataset_B02_crs statistics_B02
           (ExternalError "FileNotFoundError" "No such file or directory")
           eq_refl eq_refl eq_refl eq_refl).
Defined.

Lemma run_passes_iff_all_within_witness :
  (forall t,
      fst (execute_and_assert (load_const (file_B02 2.5)) batch_done dataset_written no_dyn
             tt "out.nc" "s" (Some t) st0) = Ok tt
      <-> bands_pass statistics_B02 [("B02", [("mean", 2.5); ("max", 4)])] t = true)
  /\ (fst (execute_and_assert (load_const (file_B02 2.5)) batch_done dataset_written no_dyn
             tt "out.nc" "s" None st0) = Ok tt
      <-> bands_pass statistics_B02 [("B02", [("mean", 2.5); ("max", 4)])] 0.01 = true)
  /\ (forall tolerance,
        fst (execute_and_assert (load_const (file_B02 2.5)) batch_done dataset_written no_dyn
               tt "out.nc" "s" tolerance st0) = Ok tt ->
        exists l,
          snd (execute_and_assert (load_const (file_B02 2.5)) batch_done dataset_written no_dyn
                 tt "out.nc" "s" tolerance st0)
          = logged (State tt [extracting_info "s"]) (LogRecord INFO comparing_info :: l)
          /\ forallb below_error l = true).
Proof.
  exact (run_passes_iff_all_within unit unit (load_const (file_B02 2.5)) batch_done
           dataset_written no_dyn tt "out.nc" "s" st0 tt tt dataset_B02_crs
           statistics_B02 [("B02", [("mean", 2.5); ("max", 4)])]
           (JObj [("B02", json_of_stats [("mean", 2.5); ("max", 4)])])
           (State tt [extracting_info "s"])
           eq_refl eq_refl eq_refl eq_refl eq_refl).
Defined.

(** ** The tolerance formula outside its domain *)

(** C1, as stated for every reference and tolerance, fails. With the negative
    tolerance -0.01 the value 1 is beyond both bounds around the reference 2,
    and the comparison ends in the library's [ValueError], not in an assertion
    failure. With an infinite reference the formula holds of the value 1
    ([inf <= 0.01 * inf]) and the comparison fails. *)
Lemma tolerance_formula_outside_domain :
  (within_tolerance 1 2 (-0.01) = false
   /\ fst (assert_band_statistics [("B02", [("mean", 1)])] [("B02", [("mean", 2)])] (-0.01) st0)
      = Raise (ValueError "relative tolerance can't be negative"))
  /\ (within_tolerance 1 infinity 0.01 = true
      /\ fst (assert_band_statistics [("B02", [("mean", 1)])] [("B02", [("mean", infinity)])]
                0.01 st0)
         = Raise AssertionError).
Proof. repeat split; vm_compute; reflexivity. Qed.

(** ** The tolerance in force *)

(** With the argument omitted a reference mean of 2.52 is within 1% of the
    computed 2.5 and one of 2.6 is not; the latter passes at the tolerance
    0.05 when that is given. *)
Example default_tolerance_in_force :
  fst (execute_and_assert (load_const (file_B02 2.52)) batch_done dataset_written no_dyn
         tt "out.nc" "s" None st0) = Ok tt
  /\ fst (execute_and_assert (load_const (file_B02 2.6)) batch_done dataset_written no_dyn
            tt "out.nc" "s" None st0) = Raise AssertionError
  /\ fst (execute_and_assert (load_const (file_B02 2.6)) batch_done dataset_written no_dyn
            tt "out.nc" "s" (Some 0.05) st0) = Ok tt.
Proof. repeat split; vm_compute; reflexivity. Qed.

(** ** Two calls of the calculator, compared as Python compares them *)











